(** * Configuration service of go-register-server

    A shallow embedding of [pkg/api/service/config_service.go]: the additive
    merge ([recursiveAdd], [addProperty]), the route separator
    ([separateRoute]), the update-policy resolver
    ([createOrUpdateConfigMap]), and the two handlers ([Save], [Poll]).

    Conventions of the embedding.
    - A decoded YAML document is a tree of [value]s; a Go
      [map[string]interface{}] is a [gmap string value].  The documents the
      handlers work on come out of [yaml.Unmarshal] and are therefore trees
      without sharing, so a map mutated in place is modelled by writing the
      mutated map back at the key it hangs under.  Maps are allocated maps
      (what [make] and the decoder of a YAML mapping produce).
    - A Go panic is the [Panicked] outcome; everything that can dereference
      a nil pointer or assert a type lives in the [outcome] monad.
    - A handler is a state transformer over the store and the response
      being written; effects performed before a panic are kept.
    - Logging and the request counter have no bearing on the store or on
      the response and are left out. *)

From stdpp Require Import gmap strings list fin_maps pretty.

(** ** The Go runtime fragment the service relies on *)

Inductive panic := NilDereference | InterfaceConversion.

Inductive outcome (A : Type) := Returned (a : A) | Panicked (p : panic).
Arguments Returned {A} a.
Arguments Panicked {A} p.

Global Instance outcome_ret : MRet outcome := @Returned.
Global Instance outcome_bind : MBind outcome := λ A B f o,
  match o with Returned a => f a | Panicked p => Panicked p end.

(** Go's [error] values: only their being nil or not is ever inspected. *)
Definition error := string.

(** A call returning [(T, error)]. *)
Inductive result (A : Type) := Ok (a : A) | Err (e : error).
Arguments Ok {A} a.
Arguments Err {A} e.

(** What [ghodss/yaml] decodes into an [interface{}]: nil, bool, float64
    (the code only moves numbers around; they are kept as integers),
    string, []interface{} and map[string]interface{}. *)
#[warnings="-register-all"]
Inductive value :=
| VNil
| VBool (b : bool)
| VFloat64 (n : Z)
| VString (s : string)
| VSlice (l : list value)
| VMap (m : gmap string value).

Module reflect.

(** [reflect.Kind], restricted to the kinds of decoded values. *)
Inductive Kind := Bool | Float64 | String | Slice | Map.

Global Instance Kind_eq_dec : EqDecision Kind.
Proof. solve_decision. Defined.

(** [reflect.TypeOf(v)]: the nil interface has no type ([None] is the nil
    [reflect.Type]). *)
Definition TypeOf (v : value) : option Kind :=
  match v with
  | VNil => None
  | VBool _ => Some Bool
  | VFloat64 _ => Some Float64
  | VString _ => Some String
  | VSlice _ => Some Slice
  | VMap _ => Some Map
  end.

(** [t.Kind()]: a method call on the nil [reflect.Type] panics. *)
Definition Type_Kind (t : option Kind) : outcome Kind :=
  match t with
  | Some k => Returned k
  | None => Panicked NilDereference
  end.

End reflect.

(** [reflect.TypeOf(v).Kind() == k] *)
Definition kind_is (v : value) (k : reflect.Kind) : outcome bool :=
  k' ← reflect.Type_Kind (reflect.TypeOf v); mret (bool_decide (k' = k)).

(** [v.(map[string]interface{})] *)
Definition assert_map (v : value) : outcome (gmap string value) :=
  match v with
  | VMap m => Returned m
  | _ => Panicked InterfaceConversion
  end.

(** [v != nil] *)
Definition not_nil (v : value) : bool :=
  match v with VNil => false | _ => true end.

(** [m[k]]: the zero value (nil) when the key is missing. *)
Definition index (m : gmap string value) (k : string) : value :=
  default VNil (m !! k).

(** Short-circuit [a && b]: [b] is evaluated only when [a] is true. *)
Definition andM (a b : outcome bool) : outcome bool :=
  x ← a; if x : bool then b else mret false.
Infix "&&&" := andM (at level 40, left associativity).

(** ** Merge engine *)

(** Modelled from the spec: [utils.Contain] is not part of the sources at
    hand; section 4.2 reads the test as "key absent from / present in the
    existing mapping". *)
Definition utils_Contain (m : gmap string value) (k : string) : bool :=
  bool_decide (is_Some (m !! k)).

(** One iteration of the loop of [recursiveAdd], for the entry [nk, nv] of
    [newMap]; [rec] is the recursive call, which takes [nv] itself rather
    than the map asserted out of it, so that the recursion is structural.
    The nested map [ov] is mutated in place by the recursive call, which
    shows here as writing the merged map back under [nk]. *)
Definition recursiveAdd_body
    (rec : gmap string value → value → outcome (gmap string value))
    (nk : string) (nv : value) (acc : outcome (gmap string value))
    : outcome (gmap string value) :=
  oldMap ← acc;
  let ov := index oldMap nk in
  if negb (utils_Contain oldMap nk) then mret (<[nk := nv]> oldMap)
  else
    c ← (mret (not_nil nv) &&& kind_is nv reflect.Map
           &&& mret (not_nil ov) &&& kind_is ov reflect.Map);
    if c : bool then
      om ← assert_map ov;
      _ ← assert_map nv;
      om' ← rec om nv;
      mret (<[nk := VMap om']> oldMap)
    else mret oldMap.

(** The recursion is on the incoming document; [newMap] is passed as the
    [value] it is ([nv.(map[string]interface{})] is the [VMap] case). *)
Fixpoint recursiveAdd_rec (oldMap : gmap string value) (newMap : value)
    {struct newMap} : outcome (gmap string value) :=
  match newMap with
  | VMap nm => map_fold (recursiveAdd_body recursiveAdd_rec) (Returned oldMap) nm
  | _ => Panicked InterfaceConversion
  end.

Definition recursiveAdd (oldMap newMap : gmap string value)
    : outcome (gmap string value) :=
  recursiveAdd_rec oldMap (VMap newMap).

(** A measure on documents, for induction over nested mappings. *)
Fixpoint value_size (v : value) : nat :=
  match v with
  | VMap m => S (map_fold (λ _ v' n, value_size v' + n) 0 m)
  | VSlice l => S (foldr (λ v' n, value_size v' + n) 0 l)
  | _ => 1
  end.

(** "scalar or sequence": anything that is neither nil nor a mapping. *)
Definition scalar_or_sequence (v : value) : Prop :=
  match v with
  | VBool _ | VFloat64 _ | VString _ | VSlice _ => True
  | VNil | VMap _ => False
  end.

(** What a merge leaves under a key bound to [ov] in the existing mapping
    and to [nv] in the incoming one. *)
Definition merged (ov nv r : value) : Prop :=
  match ov, nv with
  | VMap om, VMap nm => ∃ om', recursiveAdd om nm = Returned om' ∧ r = VMap om'
  | _, _ => r = ov
  end.

(** [R] is the key-by-key merge of [N] into [E]. *)
Definition merge_of (E N R : gmap string value) : Prop :=
  ∀ k, match E !! k with
       | None => R !! k = N !! k
       | Some ov =>
           match N !! k with
           | None => R !! k = Some ov
           | Some nv => ∃ r, R !! k = Some r ∧ merged ov nv r
           end
       end.

(** ** Entities, store and transport *)

Module entity.

(** Modelled from the spec: the [entity] package is not part of the sources
    at hand.  The fields are the ones the service reads; the policy names
    are those of section 6 (updatePolicy ∈ {not, add, cover}). *)
Record SaveConfigDTO := {
  Service : string;
  Version : string;
  Profile : string;
  Namespace : string;
  UpdatePolicy : string;
  Yaml : string;
}.

Definition UpdatePolicyNot : string := "not".
Definition UpdatePolicyAdd : string := "add".
Definition UpdatePolicyCover : string := "cover".

(** [dto.Yaml = y] *)
Definition set_Yaml (y : string) (dto : SaveConfigDTO) : SaveConfigDTO :=
  {| Service := Service dto; Version := Version dto; Profile := Profile dto;
     Namespace := Namespace dto; UpdatePolicy := UpdatePolicy dto; Yaml := y |}.

Record PropertySource := {
  ps_Name : string;
  ps_Source : gmap string value;
}.

Record Environment := {
  env_Name : string;
  env_Version : string;
  env_Profiles : list string;
  env_PropertySources : list PropertySource;
}.

End entity.
Export entity.

Module k8s.

(** The part of a ConfigMap the service reads. *)
Record ConfigMap := {
  Data : gmap string string;
  Annotations : gmap string string;
}.

(** The [k8s.ConfigMapOperator] interface, over an abstract store.  Queries
    return a pointer ([None] is nil); [CreateConfigMap] and
    [UpdateConfigMap] return the error of the call ([None] is nil; the
    ConfigMap they also return is discarded by every caller) and the store
    they leave behind. *)
Class ConfigMapOperator (Store : Type) := {
  QueryConfigMap : string → string → Store → option ConfigMap;
  QueryConfigMapByName : string → Store → option ConfigMap;
  CreateConfigMap : SaveConfigDTO → Store → option error * Store;
  UpdateConfigMap : SaveConfigDTO → Store → option error * Store;
}.

End k8s.
Export k8s.

Module restful.

(** What a handler reads from the request: the path parameters and the
    decoded body ([None] when [ReadEntity] fails). *)
Record Request := {
  PathParameters : gmap string string;
  Entity : option SaveConfigDTO;
}.

(** [request.PathParameter(name)]: empty when the parameter is missing. *)
Definition PathParameter (request : Request) (name : string) : string :=
  default "" (PathParameters request !! name).

(** What a handler writes to the response, in order. *)
Inductive written :=
| ErrorString (status : Z) (message : string)
| AsJson (env : Environment).

End restful.
Export restful.

(** Everything else the service takes from outside this file: constants of
    [entity], the process configuration [embed.Env.ConfigServer], helpers of
    [utils], the YAML codec and the struct validator. *)
Class Collaborators := {
  ApiGatewayServiceName : string;
  RouteConfigMap : string;
  DefaultProfile : string;
  ChoerodonVersion : string;
  ConfigServerAdditions : gmap string value;
  GatewayNames : list string;
  ConfigMapProfileKey : string → string;
  ConvertRecursiveMapToSingleMap : gmap string value → gmap string value;
  yaml_Unmarshal : string → result (gmap string value);
  yaml_Marshal : gmap string value → result string;
  validate_Struct : SaveConfigDTO → option error;
}.

(** ** The handler monad *)

Section handler.
Context {Store : Type}.

Record world := {
  store : Store;
  response : list written;
}.

Definition M (A : Type) : Type := world → outcome A * world.

Global Instance M_ret : MRet M := λ A a w, (Returned a, w).
Global Instance M_bind : MBind M := λ A B f m w,
  match m w with
  | (Returned a, w') => f a w'
  | (Panicked p, w') => (Panicked p, w')
  end.

(** Run a store-free computation inside a handler. *)
Definition lift {A} (o : outcome A) : M A := λ w, (o, w).

Definition get_store : M Store := λ w, (Returned (store w), w).

Definition on_store (f : Store → option error * Store) : M (option error) :=
  λ w, let '(err, st) := f (store w) in
       (Returned err, {| store := st; response := response w |}).

Definition write (x : written) : M unit :=
  λ w, (Returned tt, {| store := store w; response := response w ++ [x] |}).

Definition WriteErrorString (status : Z) (message : string) : M unit :=
  write (ErrorString status message).

Definition WriteAsJson (env : Environment) : M unit :=
  write (AsJson env).

(** [p.f] through a pointer: nil panics. *)
Definition deref {A} (p : option A) : M A :=
  match p with
  | Some a => mret a
  | None => lift (Panicked NilDereference)
  end.

End handler.
Arguments world : clear implicits.
Arguments M : clear implicits.

(** ** The service *)

Section service.
Context `{Ext : Collaborators} `{Op : ConfigMapOperator Store}.

Definition isGateway (service : string) : bool :=
  (fix loop (names : list string) : bool :=
     match names with
     | [] => false
     | v :: names => if bool_decide (v = service) then true else loop names
     end) GatewayNames.

(** [addProperty] returns Go's pair [(string, error)].  (A stored blob that
    decodes to null would leave [oldMap] nil; the codec here hands out
    allocated maps only.) *)
Definition addProperty (oldYaml : string) (newMap : gmap string value)
    : outcome (string * option error) :=
  match yaml_Unmarshal oldYaml with
  | Err err => mret ("", None)
  | Ok oldMap =>
      oldMap ← recursiveAdd oldMap newMap;
      match yaml_Marshal oldMap with
      | Err err => mret ("", Some err)
      | Ok data => mret (data, None)
      end
  end.

(** The inner loop of [separateRoute], over the entries of [vm]; the state
    is [vm] as mutated so far and [routeMap]. *)
Definition separateRoute_routes (rk : string) (rv : value)
    (acc : gmap string value * gmap string value)
    : gmap string value * gmap string value :=
  if bool_decide (rk = "routes")
  then (delete rk acc.1, <[rk := rv]> acc.2)
  else acc.

(** The outer loop, over the entries of [gateway]; the state is [gateway]
    as mutated so far (only the map under "zuul" is ever touched) and
    [routeMap]. *)
Definition separateRoute_zuul (k : string) (v : value)
    (acc : outcome (gmap string value * gmap string value))
    : outcome (gmap string value * gmap string value) :=
  st ← acc;
  c ← (mret (bool_decide (k = "zuul")) &&& kind_is v reflect.Map);
  if c : bool then
    vm ← assert_map v;
    let r := map_fold separateRoute_routes (vm, st.2) vm in
    mret (<[k := VMap r.1]> st.1, r.2)
  else mret st.

(** [separateRoute] returns [gateway] as it leaves it, next to Go's four
    results (a nil map is the empty map). *)
Definition separateRoute (gateway : gmap string value)
    : outcome (gmap string value
               * (string * string * gmap string value * option error)) :=
  st ← map_fold separateRoute_zuul (Returned (gateway, ∅)) gateway;
  let gateway := st.1 in
  let routeMap := st.2 in
  match yaml_Marshal gateway with
  | Err err => mret (gateway, ("", "", ∅, Some err))
  | Ok gb =>
      let rm : gmap string value := {[ "zuul" := VMap routeMap ]} in
      match yaml_Marshal rm with
      | Err err => mret (gateway, ("", "", ∅, Some err))
      | Ok rb => mret (gateway, (gb, rb, rm, None))
      end
  end.

(** In the handlers a Go [return] in the middle of the function shows as
    the flag [returned] of the block it leaves. *)
Definition createOrUpdateConfigMap (dto : SaveConfigDTO)
    (source : gmap string value) : M Store unit :=
  st ← get_store;
  let queryConfigMap := QueryConfigMap (Service dto) (Namespace dto) st in
  returned ← match queryConfigMap with
             | None =>
                 err ← on_store (CreateConfigMap dto);
                 match err with
                 | Some _ =>
                     WriteErrorString 500 "create configMap failed";;
                     mret true
                 | None => mret false
                 end
             | Some _ => mret false
             end;
  if returned : bool then mret tt else
  if bool_decide (queryConfigMap ≠ None)
     && bool_decide (UpdatePolicy dto = UpdatePolicyNot)
  then WriteErrorString 304 "configMap is already exist"
  else
    next ← (if bool_decide (UpdatePolicy dto = UpdatePolicyAdd) then
              let profileKey := ConfigMapProfileKey (Profile dto) in
              cm ← deref queryConfigMap;
              let oldYaml := default "" (Data cm !! profileKey) in
              if bool_decide (oldYaml ≠ "") then
                r ← lift (addProperty oldYaml source);
                match r.2 with
                | Some _ =>
                    WriteErrorString 500 "merge yaml failed";;
                    mret None
                | None => mret (Some (set_Yaml r.1 dto))
                end
              else mret (Some dto)
            else mret (Some dto));
    match next with
    | None => mret tt
    | Some dto =>
        if bool_decide (UpdatePolicy dto ≠ UpdatePolicyNot) then
          err ← on_store (UpdateConfigMap dto);
          match err with
          | Some _ => WriteErrorString 500 "update configMap failed"
          | None => mret tt
          end
        else mret tt
    end.

Definition Save (request : Request) : M Store unit :=
  match Entity request with
  | None => WriteErrorString 400 "invalid saveConfigDTO"
  | Some dto =>
      match validate_Struct dto with
      | Some _ => WriteErrorString 400 "invalid saveConfigDTO"
      | None =>
          match yaml_Unmarshal (Yaml dto) with
          | Err _ => WriteErrorString 400 "invalid yaml"
          | Ok source =>
              next ← (if bool_decide (Service dto = ApiGatewayServiceName) then
                        r ← lift (separateRoute source);
                        let '(source, (gb, rb, rm, err)) := r in
                        match err with
                        | Some _ =>
                            WriteErrorString 500 "separateRoute error";;
                            mret None
                        | None =>
                            let dto := set_Yaml gb dto in
                            let routeDTO :=
                              {| Service := RouteConfigMap;
                                 Version := Version dto;
                                 Profile := DefaultProfile;
                                 Namespace := Namespace dto;
                                 UpdatePolicy := UpdatePolicy dto;
                                 Yaml := rb |} in
                            createOrUpdateConfigMap routeDTO rm;;
                            mret (Some (dto, source))
                        end
                      else mret (Some (dto, source)));
              match next with
              | None => mret tt
              | Some (dto, source) => createOrUpdateConfigMap dto source
              end
          end
      end
  end.

Definition appendConfigServerAddition (kvMap : gmap string value)
    : gmap string value :=
  map_fold (λ k v kvMap, <[k := v]> kvMap) kvMap ConfigServerAdditions.

(** Go's triple [(map, string, error)]. *)
Definition getConfigFromConfigMap (service version : string) (st : Store)
    : result (gmap string value * string) :=
  match QueryConfigMapByName service st with
  | None => Err "can't find configMap"
  | Some configMap =>
      let application :=
        "application"
        +:+ (if bool_decide (version ≠ DefaultProfile) then "-" +:+ version else "")
        +:+ ".yml" in
      let yamlString := default "" (Data configMap !! application) in
      match (if bool_decide (yamlString ≠ "")
             then yaml_Unmarshal yamlString else Ok ∅) with
      | Err err => Err err
      | Ok source =>
          Ok (ConvertRecursiveMapToSingleMap source,
              default "" (Annotations configMap !! ChoerodonVersion))
      end
  end.

(** The two loops of the gateway branch of [Poll]. *)
Definition delete_routes (kvMap : gmap string value) : gmap string value :=
  map_fold (λ k _ kvMap,
              if String.prefix "zuul.routes." k then delete k kvMap else kvMap)
           kvMap kvMap.

Definition overlay (routeMap kvMap : gmap string value) : gmap string value :=
  map_fold (λ k v kvMap, <[k := v]> kvMap) kvMap routeMap.

Definition Poll (request : Request) : M Store unit :=
  let service := PathParameter request "service" in
  if bool_decide (service = "") then WriteErrorString 400 "service is empty" else
  let version := PathParameter request "version" in
  if bool_decide (version = "") then WriteErrorString 400 "version is empty" else
  st ← get_store;
  match getConfigFromConfigMap service version st with
  | Err _ => WriteErrorString 404 "can't find correct configMap"
  | Ok (kvMap, configMapVersion) =>
      next ← (if isGateway service then
                st ← get_store;
                match getConfigFromConfigMap RouteConfigMap version st with
                | Err _ =>
                    WriteErrorString 404 "can't find zuul-route configMap";;
                    mret None
                | Ok (routeMap, _) =>
                    mret (Some (overlay routeMap (delete_routes kvMap)))
                end
              else mret (Some kvMap));
      match next with
      | None => mret tt
      | Some kvMap =>
          let kvMap := appendConfigServerAddition kvMap in
          let env :=
            {| env_Name := service;
               env_Version := configMapVersion;
               env_Profiles := [version];
               env_PropertySources :=
                 [ {| ps_Name := service +:+ "-" +:+ version +:+ "-" +:+ configMapVersion;
                      ps_Source := kvMap |} ] |} in
          WriteAsJson env
      end
  end.

End service.

(** ** A concrete deployment

    The theorems below hold for every store operator and every choice of
    collaborators.  To run the service on concrete requests, this module
    fixes one of each. *)

Module deployment.

(** Modelled from the spec: [utils.ConvertRecursiveMapToSingleMap] is not
    part of the sources at hand; section 4.1: keys of nested mappings are
    joined with a dot, sequence elements take their zero-based index as a
    path segment, anything else is a leaf. *)
Definition join (path k : string) : string :=
  if bool_decide (path = "") then k else path +:+ "." +:+ k.

Fixpoint flatten_into (path : string) (v : value) (acc : gmap string value)
    {struct v} : gmap string value :=
  match v with
  | VMap m => map_fold (λ k v' acc, flatten_into (join path k) v' acc) acc m
  | VSlice l =>
      (fix go (i : nat) (l : list value) (acc : gmap string value) :=
         match l with
         | [] => acc
         | x :: l => go (S i) l (flatten_into (join path (pretty i)) x acc)
         end) 0%nat l acc
  | _ => <[path := v]> acc
  end.

Definition flatten (m : gmap string value) : gmap string value :=
  flatten_into "" (VMap m) ∅.

(** A YAML codec on flow-style documents with plain scalars, such as
    [{zuul: {routes: {r1: /foo}}}].  [Marshal] prints a document; [Unmarshal]
    reads back the documents of [library] and rejects every other text. *)
Fixpoint print (v : value) : string :=
  match v with
  | VNil => "null"
  | VBool b => if b then "true" else "false"
  | VFloat64 n => pretty n
  | VString s => s
  | VSlice l =>
      "[" +:+ (fix go (l : list value) : string :=
                 match l with
                 | [] => ""
                 | [x] => print x
                 | x :: l => print x +:+ ", " +:+ go l
                 end) l +:+ "]"
  | VMap m =>
      "{" +:+ map_fold (λ k v' s,
                          k +:+ ": " +:+ print v'
                          +:+ (if bool_decide (s = "") then "" else ", " +:+ s))
                       "" m +:+ "}"
  end.

Definition Marshal (m : gmap string value) : result string :=
  Ok (print (VMap m)).

Definition routes_r1 : gmap string value := {[ "r1" := VString "/foo" ]}.

Definition gateway_doc : gmap string value :=
  {[ "zuul" := VMap {[ "routes" := VMap routes_r1; "other" := VString "keep" ]} ]}.

Definition routes_only_doc : gmap string value :=
  {[ "zuul" := VMap {[ "routes" := VMap routes_r1 ]} ]}.

Definition nil_zuul_doc : gmap string value := {[ "zuul" := VNil ]}.

Definition port_doc : gmap string value :=
  {[ "server" := VMap {[ "port" := VFloat64 8080 ]} ]}.

Definition local_routes_doc : gmap string value :=
  {[ "zuul" := VMap {[ "routes" := VMap {[ "a" := VFloat64 1 ]} ]};
     "server" := VMap {[ "port" := VFloat64 8080 ]} ]}.

Definition shared_routes_doc : gmap string value :=
  {[ "zuul" := VMap {[ "routes" := VMap {[ "b" := VFloat64 2 ]} ]} ]}.

Definition library : list (gmap string value) :=
  [ gateway_doc; routes_only_doc; nil_zuul_doc; port_doc;
    local_routes_doc; shared_routes_doc;
    {[ "zuul" := VMap {[ "other" := VString "keep" ]} ]};
    {[ "zuul" := VMap ∅ ]} ].

Definition Unmarshal (s : string) : result (gmap string value) :=
  match list_find (λ d, print (VMap d) = s) library with
  | Some (_, d) => Ok d
  | None => Err "yaml: did not find expected node content"
  end.

Definition profileKey (profile : string) : string :=
  "application"
  +:+ (if bool_decide (profile ≠ "default") then "-" +:+ profile else "")
  +:+ ".yml".

Definition validate (dto : SaveConfigDTO) : option error :=
  if bool_decide (Service dto ≠ "" ∧ Version dto ≠ "" ∧ Yaml dto ≠ ""
                  ∧ UpdatePolicy dto ∈ [UpdatePolicyNot; UpdatePolicyAdd; UpdatePolicyCover])
  then None else Some "validation failed".

Definition collaborators : Collaborators := {|
  ApiGatewayServiceName := "api-gateway";
  RouteConfigMap := "zuul-route";
  DefaultProfile := "default";
  ChoerodonVersion := "choerodon.io/version";
  ConfigServerAdditions := {[ "spring.cloud.config.failFast" := VBool true ]};
  GatewayNames := [ "api-gateway"; "gateway-helper" ];
  ConfigMapProfileKey := profileKey;
  ConvertRecursiveMapToSingleMap := flatten;
  yaml_Unmarshal := Unmarshal;
  yaml_Marshal := Marshal;
  validate_Struct := validate;
|}.

(** Modelled from the spec: the store collaborator of section 6, in memory.
    Records are keyed by service name and namespace; a record holds one YAML
    blob per profile-key and the version annotation.  The store also keeps a
    journal of the write calls it received. *)
Inductive call :=
| Create (dto : SaveConfigDTO)
| Update (dto : SaveConfigDTO).

Record memory := {
  records : gmap (string * string) ConfigMap;
  journal : list call;
}.

Definition record_of (dto : SaveConfigDTO) (old : gmap string string) : ConfigMap :=
  {| Data := <[profileKey (Profile dto) := Yaml dto]> old;
     Annotations := {[ "choerodon.io/version" := Version dto ]} |}.

Definition create (dto : SaveConfigDTO) (st : memory) : option error * memory :=
  let key := (Service dto, Namespace dto) in
  match records st !! key with
  | Some _ =>
      (Some "configmaps already exists",
       {| records := records st; journal := journal st ++ [Create dto] |})
  | None =>
      (None,
       {| records := <[key := record_of dto ∅]> (records st);
          journal := journal st ++ [Create dto] |})
  end.

Definition update (dto : SaveConfigDTO) (st : memory) : option error * memory :=
  let key := (Service dto, Namespace dto) in
  match records st !! key with
  | Some cm =>
      (None,
       {| records := <[key := record_of dto (Data cm)]> (records st);
          journal := journal st ++ [Update dto] |})
  | None =>
      (Some "configmaps not found",
       {| records := records st; journal := journal st ++ [Update dto] |})
  end.

(** The namespace the poll side reads from. *)
Definition namespace : string := "default".

Definition operator : ConfigMapOperator memory := {|
  QueryConfigMap name ns st := records st !! (name, ns);
  QueryConfigMapByName name st := records st !! (name, namespace);
  CreateConfigMap := create;
  UpdateConfigMap := update;
|}.

Definition empty_memory : memory := {| records := ∅; journal := [] |}.

Definition fresh (st : memory) : world memory :=
  {| store := st; response := [] |}.

Definition blob (profile yaml version : string) : ConfigMap :=
  {| Data := {[ profileKey profile := yaml ]};
     Annotations := {[ "choerodon.io/version" := version ]} |}.

Definition dto_of (service policy yaml : string) : SaveConfigDTO :=
  {| Service := service; Version := "1.0.0"; Profile := "default";
     Namespace := "default"; UpdatePolicy := policy; Yaml := yaml |}.

Definition memory_of (l : list (string * string)) : memory :=
  {| records :=
       list_to_map (map (λ e, ((e.1, "default"), blob "default" e.2 "1.0.0")) l);
     journal := [] |}.

Definition save_request (dto : SaveConfigDTO) : Request :=
  {| PathParameters := ∅; Entity := Some dto |}.

Definition poll_request (service version : string) : Request :=
  {| PathParameters := {[ "service" := service; "version" := version ]};
     Entity := None |}.

End deployment.

(** The same deployment with a codec that decodes as before and refuses to
    serialize, to run the paths on which [yaml.Marshal] fails. *)
Module unserializable.

Definition Marshal (m : gmap string value) : result string :=
  Err "yaml: unsupported type".

Definition collaborators : Collaborators := {|
  ApiGatewayServiceName := "api-gateway";
  RouteConfigMap := "zuul-route";
  DefaultProfile := "default";
  ChoerodonVersion := "choerodon.io/version";
  ConfigServerAdditions := {[ "spring.cloud.config.failFast" := VBool true ]};
  GatewayNames := [ "api-gateway"; "gateway-helper" ];
  ConfigMapProfileKey := deployment.profileKey;
  ConvertRecursiveMapToSingleMap := deployment.flatten;
  yaml_Unmarshal := deployment.Unmarshal;
  yaml_Marshal := Marshal;
  validate_Struct := deployment.validate;
|}.

End unserializable.

(** Unfolds the handler monad down to plain state passing. *)
Ltac run :=
  repeat (progress (unfold mbind, mret, M_bind, M_ret, outcome_bind, outcome_ret,
                      get_store, on_store, WriteErrorString, WriteAsJson,
                      write, deref, lift; simpl)).

(** * Loops over maps

    Go ranges over a map in no particular order; every loop of the service
    touches, at each entry, only the key of that entry (or one fixed key),
    and the lemmas below give its result key by key. *)

Section folds.
Context {A B : Type}.
Implicit Types (m : gmap string A).

(** A loop whose body does something at one key only. *)
Lemma map_fold_only_at (f : string → A → B → B) (k0 : string) (b : B) m :
  (∀ k v acc, k ≠ k0 → f k v acc = acc) →
  map_fold f b m = match m !! k0 with Some v => f k0 v b | None => b end.
Proof.
  intros Hother.
  apply (map_fold_weak_ind
           (λ r m', r = match m' !! k0 with Some v => f k0 v b | None => b end)).
  - by rewrite lookup_empty.
  - intros i x m' r Hi ->. destruct (decide (i = k0)) as [->|Hne].
    + by rewrite lookup_insert_eq, Hi.
    + by rewrite lookup_insert_ne, Hother.
Qed.

End folds.

(** [for k, v := range m { m0[k] = v }] *)
Lemma lookup_fold_insert {A} (m0 m : gmap string A) (k : string) :
  map_fold (λ k v acc, <[k := v]> acc) m0 m !! k
  = match m !! k with Some v => Some v | None => m0 !! k end.
Proof.
  apply (map_fold_weak_ind
           (λ r m', r !! k = match m' !! k with Some v => Some v | None => m0 !! k end)).
  - by rewrite lookup_empty.
  - intros i x m' r Hi IH. destruct (decide (i = k)) as [->|Hne].
    + by rewrite !lookup_insert_eq.
    + by rewrite !lookup_insert_ne.
Qed.

(** [for k := range m { if p(k) { delete(m0, k) } }] *)
Lemma lookup_fold_delete {A} (p : string → bool) (m0 m : gmap string A) (k : string) :
  map_fold (λ k _ acc, if p k then delete k acc else acc) m0 m !! k
  = match m !! k with
    | Some _ => if p k then None else m0 !! k
    | None => m0 !! k
    end.
Proof.
  apply (map_fold_weak_ind
           (λ r m', r !! k = match m' !! k with
                             | Some _ => if p k then None else m0 !! k
                             | None => m0 !! k
                             end)).
  - by rewrite lookup_empty.
  - intros i x m' r Hi IH. destruct (decide (i = k)) as [->|Hne].
    + rewrite lookup_insert_eq. rewrite Hi in IH.
      destruct (p k); [by rewrite lookup_delete_eq|done].
    + rewrite lookup_insert_ne by done.
      destruct (p i); [by rewrite lookup_delete_ne|done].
Qed.

Lemma lookup_delete_routes (kvMap : gmap string value) (k : string) :
  delete_routes kvMap !! k
  = if String.prefix "zuul.routes." k then None else kvMap !! k.
Proof.
  unfold delete_routes.
  rewrite (lookup_fold_delete (String.prefix "zuul.routes.")).
  by destruct (kvMap !! k), (String.prefix _ k).
Qed.

Lemma lookup_overlay (routeMap kvMap : gmap string value) (k : string) :
  overlay routeMap kvMap !! k
  = match routeMap !! k with Some v => Some v | None => kvMap !! k end.
Proof. apply lookup_fold_insert. Qed.

Lemma lookup_appendConfigServerAddition `{Ext : Collaborators}
    (kvMap : gmap string value) (k : string) :
  appendConfigServerAddition kvMap !! k
  = match ConfigServerAdditions !! k with Some v => Some v | None => kvMap !! k end.
Proof. apply lookup_fold_insert. Qed.

(** * The merge engine *)

Lemma value_size_lookup (m : gmap string value) (k : string) (v : value) :
  m !! k = Some v → value_size v < value_size (VMap m).
Proof.
  simpl. revert k v.
  apply (map_fold_weak_ind
           (λ r m', ∀ k v, m' !! k = Some v → value_size v < S r)).
  - intros k v. by rewrite lookup_empty.
  - intros i x m' r Hi IH k v. destruct (decide (i = k)) as [->|Hne].
    + rewrite lookup_insert_eq. intros [= ->]. lia.
    + rewrite lookup_insert_ne by done. intros Hk. specialize (IH k v Hk). lia.
Qed.

(** The loop of [recursiveAdd], provided the recursive calls it makes
    return. *)
Lemma recursiveAdd_fold (E N : gmap string value) :
  (∀ k nm om, N !! k = Some (VMap nm) → ∃ r, recursiveAdd om nm = Returned r) →
  ∃ R, recursiveAdd E N = Returned R ∧ merge_of E N R.
Proof.
  unfold recursiveAdd at 2. simpl.
  apply (map_fold_weak_ind (λ r m',
    (∀ k nm om, m' !! k = Some (VMap nm) → ∃ r, recursiveAdd om nm = Returned r) →
    ∃ R, r = Returned R ∧ merge_of E m' R)).
  - intros _. exists E. split; [done|].
    intros k. rewrite lookup_empty. by destruct (E !! k).
  - intros i x m' r Hi IH Htot.
    destruct IH as (R & -> & HR).
    { intros k nm om Hk. apply (Htot k).
      rewrite lookup_insert_ne; [done|]. intros ->. congruence. }
    pose proof (HR i) as HRi. rewrite Hi in HRi.
    unfold recursiveAdd_body. simpl. unfold utils_Contain, index.
    destruct (E !! i) as [ov|] eqn:HEi.
    + rewrite HRi. rewrite bool_decide_true by eauto. simpl.
      destruct x as [| | | | |nm]; simpl.
      1-5: exists R; split; [done|]; intros k;
           destruct (decide (i = k)) as [<-|];
           [rewrite HEi, lookup_insert_eq; exists ov; split; [done|by destruct ov]
           |rewrite lookup_insert_ne by done; apply HR].
      destruct ov as [| | | | |om]; simpl.
      1-5: exists R; split; [done|]; intros k;
           destruct (decide (i = k)) as [<-|];
           [rewrite HEi, lookup_insert_eq; by eexists
           |rewrite lookup_insert_ne by done; apply HR].
      destruct (Htot i nm om) as [om' Hom']; [by rewrite lookup_insert_eq|].
      change (map_fold (recursiveAdd_body recursiveAdd_rec) (Returned om) nm)
        with (recursiveAdd om nm).
      rewrite Hom'. simpl.
      exists (<[i:=VMap om']> R). split; [done|]. intros k.
      destruct (decide (i = k)) as [<-|].
      * rewrite HEi, !lookup_insert_eq. eexists. split; [done|]. simpl. eauto.
      * rewrite !lookup_insert_ne by done. apply HR.
    + rewrite HRi. rewrite bool_decide_false by (intros [? ?]; done). simpl.
      exists (<[i:=x]> R). split; [done|]. intros k.
      destruct (decide (i = k)) as [<-|].
      * by rewrite HEi, !lookup_insert_eq.
      * rewrite !lookup_insert_ne by done. apply HR.
Qed.

Lemma recursiveAdd_total_sized (n : nat) :
  ∀ nm om, value_size (VMap nm) < n → ∃ r, recursiveAdd om nm = Returned r.
Proof.
  induction n as [|n IH]; intros nm om Hn; [lia|].
  destruct (recursiveAdd_fold om nm) as (R & HR & _); [|by exists R].
  intros k nm' om' Hk. apply IH.
  apply value_size_lookup in Hk. lia.
Qed.

(** [recursiveAdd] returns on every pair of mappings, with the key-by-key
    merge. *)
Lemma recursiveAdd_merge_of (E N : gmap string value) :
  ∃ R, recursiveAdd E N = Returned R ∧ merge_of E N R.
Proof.
  apply recursiveAdd_fold. intros k nm om _.
  apply (recursiveAdd_total_sized (S (value_size (VMap nm)))). lia.
Qed.

(** C2.  For every existing mapping [E] and incoming mapping [N],
    [recursiveAdd E N] returns a mapping [R] in which: every key of [E]
    bound to a scalar or a sequence keeps its value; every key of [N] absent
    from [E] is bound to its value in [N], nested structure included; and a
    key bound to nested mappings on both sides is bound to the merge of the
    two sub-mappings. *)
Theorem recursiveAdd_additive (E N : gmap string value) :
  ∃ R, recursiveAdd E N = Returned R
     ∧ (∀ k v, E !! k = Some v → scalar_or_sequence v → R !! k = Some v)
     ∧ (∀ k v, N !! k = Some v → E !! k = None → R !! k = Some v)
     ∧ (∀ k om nm, E !! k = Some (VMap om) → N !! k = Some (VMap nm) →
          ∃ om', recursiveAdd om nm = Returned om' ∧ R !! k = Some (VMap om')).
Proof.
  destruct (recursiveAdd_merge_of E N) as (R & HR & Hm).
  exists R. split; [done|]. repeat split.
  - intros k v HE Hv. specialize (Hm k). rewrite HE in Hm.
    destruct (N !! k) as [nv|]; [|done].
    destruct Hm as (r & -> & Hr). unfold merged in Hr.
    destruct v; try done; by subst.
  - intros k v HN HE. specialize (Hm k). by rewrite HE, HN in Hm.
  - intros k om nm HE HN. specialize (Hm k). rewrite HE, HN in Hm.
    destruct Hm as (r & -> & om' & Hom' & ->). eauto.
Qed.

(** Keys of neither side stay absent, and keys of the existing side alone
    are kept. *)
Lemma recursiveAdd_no_other_key (E N R : gmap string value) (k : string) :
  recursiveAdd E N = Returned R → N !! k = None → R !! k = E !! k.
Proof.
  intros HR HN. destruct (recursiveAdd_merge_of E N) as (R' & HR' & Hm).
  rewrite HR in HR'. injection HR' as <-.
  specialize (Hm k). rewrite HN in Hm. by destruct (E !! k).
Qed.

(** Section 8 of the specification, "merge recursion". *)
Example recursiveAdd_recursion :
  recursiveAdd {[ "a" := VMap {[ "x" := VFloat64 1 ]} ]}
               {[ "a" := VMap {[ "y" := VFloat64 2 ]} ]}
  = Returned {[ "a" := VMap {[ "x" := VFloat64 1; "y" := VFloat64 2 ]} ]}.
Proof. vm_compute. reflexivity. Qed.

(** C9.  [recursiveAdd] returns (it does not panic) on every pair of
    mappings, and under a key present on both sides with nil on either
    side, the existing value stays and the incoming one is dropped. *)
Theorem recursiveAdd_nil_safe (E N : gmap string value) :
  ∃ R, recursiveAdd E N = Returned R
     ∧ ∀ k ov nv, E !! k = Some ov → N !! k = Some nv →
         ov = VNil ∨ nv = VNil → R !! k = Some ov.
Proof.
  destruct (recursiveAdd_merge_of E N) as (R & HR & Hm).
  exists R. split; [done|]. intros k ov nv HE HN Hnil.
  specialize (Hm k). rewrite HE, HN in Hm.
  destruct Hm as (r & -> & Hr). unfold merged in Hr.
  destruct Hnil as [-> | ->]; [by subst|]. destruct ov; by subst.
Qed.

Example recursiveAdd_nil_on_either_side :
  recursiveAdd {[ "a" := VNil; "b" := VMap {[ "x" := VFloat64 1 ]} ]}
               {[ "a" := VMap {[ "y" := VFloat64 2 ]}; "b" := VNil ]}
  = Returned {[ "a" := VNil; "b" := VMap {[ "x" := VFloat64 1 ]} ]}.
Proof. vm_compute. reflexivity. Qed.

(** * The update-policy resolver *)

Section resolver.
Context `{Ext : Collaborators} `{Op : ConfigMapOperator Store}.

(** C1.  What the resolver does on a first-time save under the policy
    "add": the record is created, and then, instead of the update the
    specification describes, the blob of the record that was not found is
    read through the nil pointer [queryConfigMap] and the handler panics
    (or, when the creation fails, answers 500).  [UpdateConfigMap] is not
    reached. *)
Theorem createOrUpdateConfigMap_first_add_panics (dto : SaveConfigDTO)
    (source : gmap string value) (w : world Store) :
  QueryConfigMap (Service dto) (Namespace dto) (store w) = None →
  UpdatePolicy dto = UpdatePolicyAdd →
  createOrUpdateConfigMap dto source w
  = match CreateConfigMap dto (store w) with
    | (Some _, st) =>
        (Returned tt,
         {| store := st;
            response := response w ++ [ErrorString 500 "create configMap failed"] |})
    | (None, st) =>
        (Panicked NilDereference, {| store := st; response := response w |})
    end.
Proof.
  intros Hq Hadd. unfold createOrUpdateConfigMap. run. rewrite Hq. run.
  destruct (CreateConfigMap dto (store w)) as [[e|] st]; run; [done|].
  by rewrite Hadd.
Qed.

(** For comparison, the first-time save under any policy other than "not"
    and "add" (that is, "cover") does create and then update. *)
Lemma createOrUpdateConfigMap_first_cover (dto : SaveConfigDTO)
    (source : gmap string value) (w : world Store) (st st' : Store) :
  QueryConfigMap (Service dto) (Namespace dto) (store w) = None →
  UpdatePolicy dto ≠ UpdatePolicyAdd →
  UpdatePolicy dto ≠ UpdatePolicyNot →
  CreateConfigMap dto (store w) = (None, st) →
  UpdateConfigMap dto st = (None, st') →
  createOrUpdateConfigMap dto source w
  = (Returned tt, {| store := st'; response := response w |}).
Proof.
  intros Hq Hadd Hnot Hc Hu. unfold createOrUpdateConfigMap. run.
  rewrite Hq. run. rewrite Hc. run.
  rewrite (bool_decide_false _ Hadd). run.
  rewrite (bool_decide_true _ Hnot). run. by rewrite Hu.
Qed.


(** C3.  What the resolver does when the stored blob does not decode:
    [addProperty] returns the empty string with a nil error, so no 500 is
    written and [UpdateConfigMap] is called with an empty document. *)
Theorem createOrUpdateConfigMap_undecodable_blob (dto : SaveConfigDTO)
    (source : gmap string value) (w : world Store) (cm : ConfigMap)
    (oldYaml : string) (e : error) :
  QueryConfigMap (Service dto) (Namespace dto) (store w) = Some cm →
  UpdatePolicy dto = UpdatePolicyAdd →
  Data cm !! ConfigMapProfileKey (Profile dto) = Some oldYaml →
  oldYaml ≠ "" →
  yaml_Unmarshal oldYaml = Err e →
  addProperty oldYaml source = Returned ("", None)
  ∧ createOrUpdateConfigMap dto source w
    = match UpdateConfigMap (set_Yaml "" dto) (store w) with
      | (Some _, st) =>
          (Returned tt,
           {| store := st;
              response := response w ++ [ErrorString 500 "update configMap failed"] |})
      | (None, st) => (Returned tt, {| store := st; response := response w |})
      end.
Proof.
  intros Hq Hadd Hold Hne Hdec.
  assert (Hprop : addProperty oldYaml source = Returned ("", None)).
  { unfold addProperty. by rewrite Hdec. }
  split; [done|].
  unfold createOrUpdateConfigMap. run. rewrite Hq. run.
  rewrite Hadd. run. rewrite Hold. simpl. rewrite bool_decide_true by done.
  rewrite Hprop. run. rewrite Hadd. simpl.
  by destruct (UpdateConfigMap _ _) as [[?|] ?].
Qed.

(** The other failure of the merge step, a document that does not
    serialize, is reported: 500, and the store is left as it was. *)
Lemma createOrUpdateConfigMap_marshal_failure (dto : SaveConfigDTO)
    (source : gmap string value) (w : world Store) (cm : ConfigMap)
    (oldYaml : string) (oldMap newMap : gmap string value) (e : error) :
  QueryConfigMap (Service dto) (Namespace dto) (store w) = Some cm →
  UpdatePolicy dto = UpdatePolicyAdd →
  Data cm !! ConfigMapProfileKey (Profile dto) = Some oldYaml →
  oldYaml ≠ "" →
  yaml_Unmarshal oldYaml = Ok oldMap →
  recursiveAdd oldMap source = Returned newMap →
  yaml_Marshal newMap = Err e →
  createOrUpdateConfigMap dto source w
  = (Returned tt,
     {| store := store w;
        response := response w ++ [ErrorString 500 "merge yaml failed"] |}).
Proof.
  intros Hq Hadd Hold Hne Hdec Hm He.
  unfold createOrUpdateConfigMap. run. rewrite Hq. run.
  rewrite Hadd. run. rewrite Hold. simpl. rewrite bool_decide_true by done.
  unfold addProperty. rewrite Hdec. run. rewrite Hm. by rewrite He.
Qed.

End resolver.

Section resolver_runs.
Import deployment.

Lemma createOrUpdateConfigMap_first_add_panics_witness :
  @createOrUpdateConfigMap collaborators _ operator
    (dto_of "config-demo" "add" "{server: {port: 8080}}") port_doc
    (fresh empty_memory)
  = (Panicked NilDereference,
     {| store :=
          {| records := {[ ("config-demo", "default")
                           := blob "default" "{server: {port: 8080}}" "1.0.0" ]};
             journal := [Create (dto_of "config-demo" "add" "{server: {port: 8080}}")] |};
        response := [] |}).
Proof.
  etrans.
  - apply (@createOrUpdateConfigMap_first_add_panics collaborators _ operator);
      vm_compute; reflexivity.
  - vm_compute. reflexivity.
Defined.

(** The same save, from the handler. *)
Example Save_first_add_panics :
  (@Save collaborators _ operator
     (save_request (dto_of "config-demo" "add" "{server: {port: 8080}}"))
     (fresh empty_memory)).1
  = Panicked NilDereference.
Proof. vm_compute. reflexivity. Qed.


Lemma createOrUpdateConfigMap_undecodable_blob_witness :
  @createOrUpdateConfigMap collaborators _ operator
    (dto_of "config-demo" "add" "{server: {port: 8080}}") port_doc
    (fresh (memory_of [("config-demo", "server: [")]))
  = (Returned tt,
     {| store :=
          {| records := {[ ("config-demo", "default") := blob "default" "" "1.0.0" ]};
             journal := [Update (dto_of "config-demo" "add" "")] |};
        response := [] |}).
Proof.
  etrans.
  - apply (@createOrUpdateConfigMap_undecodable_blob collaborators _ operator
             _ _ _ (blob "default" "server: [" "1.0.0") "server: ["
             "yaml: did not find expected node content");
      vm_compute; first [reflexivity | discriminate].
  - vm_compute. reflexivity.
Defined.

(** The same save, from the handler: the blob is replaced by the empty
    document and the response carries no error. *)
Example Save_undecodable_blob_overwrites :
  @Save collaborators _ operator
    (save_request (dto_of "config-demo" "add" "{server: {port: 8080}}"))
    (fresh (memory_of [("config-demo", "server: [")]))
  = (Returned tt,
     {| store :=
          {| records := {[ ("config-demo", "default") := blob "default" "" "1.0.0" ]};
             journal := [Update (dto_of "config-demo" "add" "")] |};
        response := [] |}).
Proof. reflexivity. Qed.

End resolver_runs.

(** * The route separator *)

Lemma separateRoute_routes_fold (vm routeMap : gmap string value) :
  map_fold separateRoute_routes (vm, routeMap) vm
  = match vm !! "routes" with
    | Some rv => (delete "routes" vm, <["routes" := rv]> routeMap)
    | None => (vm, routeMap)
    end.
Proof.
  rewrite (map_fold_only_at _ "routes").
  - destruct (vm !! "routes"); [|done]. unfold separateRoute_routes.
    by rewrite bool_decide_true.
  - intros k v acc Hk. unfold separateRoute_routes. by rewrite bool_decide_false.
Qed.

(** The two loops of [separateRoute], by what "zuul" is bound to. *)
Lemma separateRoute_zuul_fold (gateway : gmap string value) :
  map_fold separateRoute_zuul (Returned (gateway, ∅)) gateway
  = match gateway !! "zuul" with
    | Some (VMap vm) =>
        Returned (<["zuul" := VMap (delete "routes" vm)]> gateway,
                  match vm !! "routes" with
                  | Some rv => {[ "routes" := rv ]}
                  | None => ∅
                  end)
    | Some VNil => Panicked NilDereference
    | _ => Returned (gateway, ∅)
    end.
Proof.
  rewrite (map_fold_only_at _ "zuul").
  - destruct (gateway !! "zuul") as [v|]; [|done].
    unfold separateRoute_zuul. rewrite bool_decide_true by done.
    destruct v as [| | | | |vm]; try done. run.
    rewrite separateRoute_routes_fold.
    destruct (vm !! "routes") as [rv|] eqn:Hr; simpl; [done|].
    by rewrite delete_id.
  - intros k v acc Hk. unfold separateRoute_zuul.
    rewrite bool_decide_false by done. by destruct acc.
Qed.

Section separator.
Context `{Ext : Collaborators}.

(** C5, as the code has it.  For a gateway document whose "zuul" key is
    bound to a mapping [vm] containing "routes", [separateRoute] leaves the
    document with "zuul" bound to [vm] minus "routes" (the key "zuul" stays,
    also when nothing is left under it), and returns the serialized
    remainder, the serialized route document and the route document
    [{"zuul": {"routes": rv}}], or the error of the first serialization
    that fails. *)
Theorem separateRoute_extracts_routes (gateway vm : gmap string value) (rv : value) :
  gateway !! "zuul" = Some (VMap vm) →
  vm !! "routes" = Some rv →
  let remainder := <["zuul" := VMap (delete "routes" vm)]> gateway in
  let rm : gmap string value := {[ "zuul" := VMap {[ "routes" := rv ]} ]} in
  remainder !! "zuul" = Some (VMap (delete "routes" vm))
  ∧ separateRoute gateway
    = Returned (remainder,
                match yaml_Marshal remainder, yaml_Marshal rm with
                | Ok gb, Ok rb => (gb, rb, rm, None)
                | Err err, _ | Ok _, Err err => ("", "", ∅, Some err)
                end).
Proof.
  intros Hz Hr remainder rm. split; [by apply lookup_insert_eq|].
  unfold separateRoute. rewrite separateRoute_zuul_fold, Hz, Hr. run.
  fold remainder. fold rm. by destruct (yaml_Marshal remainder), (yaml_Marshal rm).
Qed.

(** Whenever [separateRoute] returns without error: the remainder carries
    no "routes" under "zuul", agrees with the document elsewhere, and the
    outputs are the serializations of the remainder and of the route
    document. *)
Lemma separateRoute_returns (gateway remainder rm : gmap string value)
    (gb rb : string) :
  separateRoute gateway = Returned (remainder, (gb, rb, rm, None)) →
  (∀ z, remainder !! "zuul" = Some (VMap z) → z !! "routes" = None)
  ∧ (∀ k, k ≠ "zuul" → remainder !! k = gateway !! k)
  ∧ yaml_Marshal remainder = Ok gb
  ∧ yaml_Marshal rm = Ok rb
  ∧ rm = {[ "zuul" := VMap match gateway !! "zuul" with
                           | Some (VMap vm) =>
                               match vm !! "routes" with
                               | Some rv => {[ "routes" := rv ]}
                               | None => ∅
                               end
                           | _ => ∅
                           end ]}.
Proof.
  unfold separateRoute. rewrite separateRoute_zuul_fold.
  destruct (gateway !! "zuul") as [v|] eqn:Hz.
  - destruct v as [| | | | |vm]; run; try done.
    all: destruct (yaml_Marshal _) as [gb'|] eqn:Hgb; try done.
    all: destruct (yaml_Marshal {[ _ := _ ]}) as [rb'|] eqn:Hrb; try done.
    all: intros [= <- <- <- <-]; repeat split; try done.
    1-4: intros z Hz'; congruence.
    + intros z. rewrite lookup_insert_eq. intros [= <-]. apply lookup_delete_eq.
    + intros k Hk. by rewrite lookup_insert_ne.
  - run. destruct (yaml_Marshal gateway) as [gb'|] eqn:Hgb; try done.
    destruct (yaml_Marshal {[ _ := _ ]}) as [rb'|] eqn:Hrb; try done.
    intros [= <- <- <- <-]; repeat split; try done. intros z Hz'; congruence.
Qed.

End separator.

Section save.
Context `{Ext : Collaborators} `{Op : ConfigMapOperator Store}.

(** A save for a service other than [ApiGatewayServiceName] is the
    resolver run on the request as it came. *)
Lemma Save_other_service (request : Request) (dto : SaveConfigDTO)
    (source : gmap string value) (w : world Store) :
  Entity request = Some dto →
  validate_Struct dto = None →
  yaml_Unmarshal (Yaml dto) = Ok source →
  Service dto ≠ ApiGatewayServiceName →
  Save request w = createOrUpdateConfigMap dto source w.
Proof.
  intros Hdto Hval Hdec Hsvc. unfold Save. rewrite Hdto, Hval, Hdec.
  rewrite bool_decide_false by done. by run.
Qed.

(** C4, as the code has it.  [Save] separates routes when the service name
    is [ApiGatewayServiceName]: once separation has returned without error,
    the resolver runs first for [RouteConfigMap] (default profile; version,
    namespace and policy of the request) with the route document, then for
    the service itself with the remainder, in which "zuul" carries no
    "routes".  For every other service name, the members of [GatewayNames]
    included, the request goes to the resolver as it came. *)
Theorem Save_separates_routes_of_ApiGatewayServiceName (request : Request)
    (dto : SaveConfigDTO) (source : gmap string value) (w : world Store) :
  Entity request = Some dto →
  validate_Struct dto = None →
  yaml_Unmarshal (Yaml dto) = Ok source →
  (Service dto = ApiGatewayServiceName →
   ∀ remainder gb rb rm,
     separateRoute source = Returned (remainder, (gb, rb, rm, None)) →
     (∀ z, remainder !! "zuul" = Some (VMap z) → z !! "routes" = None)
     ∧ yaml_Marshal remainder = Ok gb
     ∧ yaml_Marshal rm = Ok rb
     ∧ rm = {[ "zuul" := VMap match source !! "zuul" with
                              | Some (VMap vm) =>
                                  match vm !! "routes" with
                                  | Some rv => {[ "routes" := rv ]}
                                  | None => ∅
                                  end
                              | _ => ∅
                              end ]}
     ∧ Save request w
       = (createOrUpdateConfigMap
            {| Service := RouteConfigMap; Version := Version dto;
               Profile := DefaultProfile; Namespace := Namespace dto;
               UpdatePolicy := UpdatePolicy dto; Yaml := rb |} rm;;
          createOrUpdateConfigMap (set_Yaml gb dto) remainder) w)
  ∧ (Service dto ≠ ApiGatewayServiceName →
     Save request w = createOrUpdateConfigMap dto source w).
Proof.
  intros Hdto Hval Hdec. split.
  - intros Hsvc remainder gb rb rm Hsep.
    destruct (separateRoute_returns _ _ _ _ _ Hsep) as (Hfree & _ & Hgb & Hrb & Hrm).
    repeat split; try done.
    unfold Save. rewrite Hdto, Hval, Hdec. rewrite bool_decide_true by done.
    run. rewrite Hsep. run.
    by destruct (createOrUpdateConfigMap _ rm w) as [[[]|] ?].
  - intros Hsvc. by apply Save_other_service.
Qed.

(** The rejection of C7 seen from the handler, for a service that is not
    [ApiGatewayServiceName]. *)
Lemma Save_reject_if_exists (request : Request) (dto : SaveConfigDTO)
    (source : gmap string value) (w : world Store) (cm : ConfigMap) :
  Entity request = Some dto →
  validate_Struct dto = None →
  yaml_Unmarshal (Yaml dto) = Ok source →
  Service dto ≠ ApiGatewayServiceName →
  QueryConfigMap (Service dto) (Namespace dto) (store w) = Some cm →
  UpdatePolicy dto = UpdatePolicyNot →
  Save request w
  = (Returned tt,
     {| store := store w;
        response := response w ++ [ErrorString 304 "configMap is already exist"] |}).
Proof.
  intros Hdto Hval Hdec Hsvc Hq Hnot.
  rewrite (Save_other_service request dto source w Hdto Hval Hdec Hsvc).
  unfold createOrUpdateConfigMap. run. rewrite Hq. run. by rewrite Hnot.
Qed.

(** C10.  On a document whose "zuul" key is bound to nil, [separateRoute]
    panics: [reflect.TypeOf] of nil is the nil type, and [Kind] is called
    on it.  A save of such a document for [ApiGatewayServiceName] panics
    with it: nothing is written to the response, 500 included, and the
    store is not touched. *)
Theorem separateRoute_nil_zuul_panics (gateway : gmap string value) :
  gateway !! "zuul" = Some VNil →
  separateRoute gateway = Panicked NilDereference
  ∧ ∀ (request : Request) (dto : SaveConfigDTO) (w : world Store),
      Entity request = Some dto →
      validate_Struct dto = None →
      Service dto = ApiGatewayServiceName →
      yaml_Unmarshal (Yaml dto) = Ok gateway →
      Save request w = (Panicked NilDereference, w).
Proof.
  intros Hz.
  assert (Hsep : separateRoute gateway = Panicked NilDereference).
  { unfold separateRoute. by rewrite separateRoute_zuul_fold, Hz. }
  split; [done|]. intros request dto w Hdto Hval Hsvc Hdec.
  unfold Save. rewrite Hdto, Hval, Hdec. rewrite bool_decide_true by done.
  run. by rewrite Hsep.
Qed.

End save.

Section save_runs.
Import deployment.

(** The route document of section 8 with nothing but routes under "zuul":
    the remainder keeps "zuul", bound to the empty mapping. *)
Lemma separateRoute_keeps_emptied_zuul :
  routes_only_doc !! "zuul" = Some (VMap {[ "routes" := VMap routes_r1 ]})
  ∧ ∃ remainder,
      @separateRoute collaborators routes_only_doc
      = Returned (remainder,
                  ("{zuul: {}}", "{zuul: {routes: {r1: /foo}}}", routes_only_doc, None))
      ∧ remainder !! "zuul" = Some (VMap ∅).
Proof. split; [done|]. eexists. split; vm_compute; reflexivity. Qed.

Lemma separateRoute_extracts_routes_witness :
  @separateRoute collaborators gateway_doc
  = Returned ({[ "zuul" := VMap {[ "other" := VString "keep" ]} ]},
              ("{zuul: {other: keep}}", "{zuul: {routes: {r1: /foo}}}",
               routes_only_doc, None)).
Proof.
  etrans.
  - apply (@separateRoute_extracts_routes collaborators gateway_doc
             {[ "routes" := VMap routes_r1; "other" := VString "keep" ]}
             (VMap routes_r1));
      vm_compute; reflexivity.
  - vm_compute. reflexivity.
Defined.

(** A member of [GatewayNames] other than [ApiGatewayServiceName]: the
    document is stored under the service's own name with its routes, and
    nothing is stored under [RouteConfigMap]. *)
Lemma Save_gateway_helper_keeps_routes :
  @isGateway collaborators "gateway-helper" = true
  ∧ @Save collaborators _ operator
      (save_request (dto_of "gateway-helper" "cover" "{zuul: {routes: {r1: /foo}}}"))
      (fresh empty_memory)
    = (Returned tt,
       {| store :=
            {| records := {[ ("gateway-helper", "default")
                             := blob "default" "{zuul: {routes: {r1: /foo}}}" "1.0.0" ]};
               journal :=
                 [ Create (dto_of "gateway-helper" "cover" "{zuul: {routes: {r1: /foo}}}");
                   Update (dto_of "gateway-helper" "cover" "{zuul: {routes: {r1: /foo}}}") ] |};
          response := [] |})
  ∧ Unmarshal "{zuul: {routes: {r1: /foo}}}" = Ok routes_only_doc
  ∧ routes_only_doc !! "zuul" = Some (VMap {[ "routes" := VMap routes_r1 ]}).
Proof. repeat split; vm_compute; reflexivity. Qed.

Lemma Save_separates_routes_of_ApiGatewayServiceName_witness :
  let dto := dto_of "api-gateway" "cover" "{zuul: {other: keep, routes: {r1: /foo}}}" in
  @Save collaborators _ operator (save_request dto) (fresh empty_memory)
  = (@createOrUpdateConfigMap collaborators _ operator
       (dto_of "zuul-route" "cover" "{zuul: {routes: {r1: /foo}}}") routes_only_doc;;
     @createOrUpdateConfigMap collaborators _ operator
       (dto_of "api-gateway" "cover" "{zuul: {other: keep}}")
       {[ "zuul" := VMap {[ "other" := VString "keep" ]} ]}) (fresh empty_memory).
Proof.
  intros dto.
  destruct (@Save_separates_routes_of_ApiGatewayServiceName collaborators _ operator
              (save_request dto) dto gateway_doc (fresh empty_memory))
    as [Hapi _]; [vm_compute; reflexivity..|].
  destruct (Hapi eq_refl {[ "zuul" := VMap {[ "other" := VString "keep" ]} ]}
              "{zuul: {other: keep}}" "{zuul: {routes: {r1: /foo}}}" routes_only_doc)
    as (_ & _ & _ & _ & Hsave); [vm_compute; reflexivity|].
  exact Hsave.
Defined.

(** The whole run: the routes end up under [RouteConfigMap], the remainder
    under the gateway's own name. *)
Example Save_api_gateway_run :
  let dto := dto_of "api-gateway" "cover" "{zuul: {other: keep, routes: {r1: /foo}}}" in
  let w := (@Save collaborators _ operator (save_request dto) (fresh empty_memory)).2 in
  records (store w)
  = {[ ("zuul-route", "default") := blob "default" "{zuul: {routes: {r1: /foo}}}" "1.0.0";
       ("api-gateway", "default") := blob "default" "{zuul: {other: keep}}" "1.0.0" ]}
  ∧ response w = [].
Proof. split; reflexivity. Qed.

Lemma separateRoute_nil_zuul_panics_witness :
  @separateRoute collaborators nil_zuul_doc = Panicked NilDereference
  ∧ @Save collaborators _ operator
      (save_request (dto_of "api-gateway" "cover" "{zuul: null}"))
      (fresh empty_memory)
    = (Panicked NilDereference, fresh empty_memory).
Proof.
  destruct (@separateRoute_nil_zuul_panics collaborators _ operator nil_zuul_doc eq_refl)
    as [Hsep Hsave].
  split; [exact Hsep|].
  apply (Hsave _ (dto_of "api-gateway" "cover" "{zuul: null}"));
    vm_compute; reflexivity.
Defined.

End save_runs.

(** * The poll assembler *)

Section poll.
Context `{Ext : Collaborators} `{Op : ConfigMapOperator Store}.

Lemma getConfigFromConfigMap_missing (service version : string) (st : Store) :
  QueryConfigMapByName service st = None →
  getConfigFromConfigMap service version st = Err "can't find configMap".
Proof. intros Hq. unfold getConfigFromConfigMap. by rewrite Hq. Qed.

(** C8.  A poll with its two path parameters: when the record of the
    service is missing, the poll answers 404 and nothing else; when the
    service is one of [GatewayNames] and the record of [RouteConfigMap] is
    missing, the poll answers 404 and nothing else.  In both cases no
    Environment is written. *)
Theorem Poll_not_found (request : Request) (w : world Store) :
  let service := PathParameter request "service" in
  let version := PathParameter request "version" in
  service ≠ "" →
  version ≠ "" →
  (QueryConfigMapByName service (store w) = None →
   Poll request w
   = (Returned tt,
      {| store := store w;
         response := response w
                     ++ [ErrorString 404 "can't find correct configMap"] |}))
  ∧ (isGateway service = true →
     QueryConfigMapByName RouteConfigMap (store w) = None →
     ∃ message,
       Poll request w
       = (Returned tt,
          {| store := store w;
             response := response w ++ [ErrorString 404 message] |})).
Proof.
  intros service version Hs Hv. unfold Poll. fold service. fold version.
  rewrite !bool_decide_false by done. run. split.
  - intros Hq. by rewrite (getConfigFromConfigMap_missing _ _ _ Hq).
  - intros Hgw Hq.
    destruct (getConfigFromConfigMap service version (store w)) as [[kvMap tag]|];
      [|by eexists].
    rewrite Hgw. run. rewrite (getConfigFromConfigMap_missing _ _ _ Hq). by eexists.
Qed.

(** With a path parameter missing the poll is refused before any lookup. *)
Lemma Poll_parameter_missing (request : Request) (w : world Store) :
  PathParameter request "service" = "" ∨ PathParameter request "version" = "" →
  ∃ message,
    Poll request w
    = (Returned tt,
       {| store := store w;
          response := response w ++ [ErrorString 400 message] |}).
Proof.
  intros Hp. unfold Poll.
  destruct (decide (PathParameter request "service" = "")) as [Hs|Hs].
  - rewrite (bool_decide_true _ Hs). by eexists.
  - rewrite (bool_decide_false _ Hs). destruct Hp as [?|Hv]; [done|].
    rewrite (bool_decide_true _ Hv). by eexists.
Qed.

(** C6.  A poll of a member of [GatewayNames] for which both lookups
    succeed, [own] being the flattened document of the service and
    [shared] that of [RouteConfigMap]: the properties [kvMap] the gateway
    step leaves hold, under a key with the prefix "zuul.routes.", what
    [shared] holds and nothing of [own]; under every key of [shared], the
    value of [shared]; under every other key, the value of [own].  The
    Environment written carries [kvMap] with the static additions on top,
    which leave every key they do not name as it is in [kvMap]. *)
Theorem Poll_gateway_overlay (request : Request) (w : world Store)
    (own shared : gmap string value) (tag tag' : string) :
  let service := PathParameter request "service" in
  let version := PathParameter request "version" in
  service ≠ "" →
  version ≠ "" →
  isGateway service = true →
  getConfigFromConfigMap service version (store w) = Ok (own, tag) →
  getConfigFromConfigMap RouteConfigMap version (store w) = Ok (shared, tag') →
  ∃ kvMap : gmap string value,
    (∀ k, String.prefix "zuul.routes." k = true → kvMap !! k = shared !! k)
    ∧ (∀ k v, shared !! k = Some v → kvMap !! k = Some v)
    ∧ (∀ k, String.prefix "zuul.routes." k = false → shared !! k = None →
            kvMap !! k = own !! k)
    ∧ (∀ k, ConfigServerAdditions !! k = None →
            appendConfigServerAddition kvMap !! k = kvMap !! k)
    ∧ Poll request w
      = (Returned tt,
         {| store := store w;
            response :=
              response w
              ++ [AsJson
                    {| env_Name := service;
                       env_Version := tag;
                       env_Profiles := [version];
                       env_PropertySources :=
                         [ {| ps_Name := service +:+ "-" +:+ version +:+ "-" +:+ tag;
                              ps_Source := appendConfigServerAddition kvMap |} ] |}] |}).
Proof.
  intros service version Hs Hv Hgw Hown Hshared.
  exists (overlay shared (delete_routes own)). repeat split.
  - intros k Hk. rewrite lookup_overlay, lookup_delete_routes, Hk.
    by destruct (shared !! k).
  - intros k v Hk. by rewrite lookup_overlay, Hk.
  - intros k Hk Hn. by rewrite lookup_overlay, lookup_delete_routes, Hk, Hn.
  - intros k Hk. by rewrite lookup_appendConfigServerAddition, Hk.
  - unfold Poll. fold service. fold version. rewrite !bool_decide_false by done.
    run. rewrite Hown, Hgw. run. by rewrite Hshared.
Qed.

End poll.

Section poll_runs.
Import deployment.

Lemma Poll_not_found_witness :
  @Poll collaborators _ operator (poll_request "config-demo" "default")
    (fresh empty_memory)
  = (Returned tt,
     {| store := empty_memory;
        response := [ErrorString 404 "can't find correct configMap"] |})
  ∧ ∃ message,
      @Poll collaborators _ operator (poll_request "api-gateway" "default")
        (fresh (memory_of [("api-gateway", "{server: {port: 8080}, zuul: {routes: {a: 1}}}")]))
      = (Returned tt,
         {| store := memory_of [("api-gateway", "{server: {port: 8080}, zuul: {routes: {a: 1}}}")];
            response := [ErrorString 404 message] |}).
Proof.
  split.
  - etrans.
    + apply (@Poll_not_found collaborators _ operator
               (poll_request "config-demo" "default") (fresh empty_memory));
        vm_compute; first [reflexivity | discriminate].
    + vm_compute. reflexivity.
  - destruct (@Poll_not_found collaborators _ operator
                (poll_request "api-gateway" "default")
                (fresh (memory_of [("api-gateway", "{server: {port: 8080}, zuul: {routes: {a: 1}}}")])))
      as [_ Hroute]; [vm_compute; discriminate..|].
    destruct Hroute as [message Hpoll]; [vm_compute; reflexivity..|].
    exists message. exact Hpoll.
Defined.

Lemma Poll_gateway_overlay_witness :
  let st := memory_of [("api-gateway", "{server: {port: 8080}, zuul: {routes: {a: 1}}}");
                       ("zuul-route", "{zuul: {routes: {b: 2}}}")] in
  ∃ kvMap : gmap string value,
    kvMap !! "zuul.routes.a" = None
    ∧ kvMap !! "zuul.routes.b" = Some (VFloat64 2)
    ∧ kvMap !! "server.port" = Some (VFloat64 8080)
    ∧ @Poll collaborators _ operator (poll_request "api-gateway" "default") (fresh st)
      = (Returned tt,
         {| store := st;
            response :=
              [AsJson
                 {| env_Name := "api-gateway";
                    env_Version := "1.0.0";
                    env_Profiles := ["default"];
                    env_PropertySources :=
                      [ {| ps_Name := "api-gateway-default-1.0.0";
                           ps_Source :=
                             @appendConfigServerAddition collaborators kvMap |} ] |}] |}).
Proof.
  intros st.
  destruct (@Poll_gateway_overlay collaborators _ operator
              (poll_request "api-gateway" "default") (fresh st)
              (flatten local_routes_doc) (flatten shared_routes_doc) "1.0.0" "1.0.0")
    as (kvMap & Hroutes & Hshared & Hown & _ & Hpoll); [vm_compute; first [reflexivity | discriminate]..|].
  exists kvMap. repeat split.
  - rewrite Hroutes by reflexivity. vm_compute. reflexivity.
  - apply Hshared. vm_compute. reflexivity.
  - rewrite Hown by (vm_compute; reflexivity). vm_compute. reflexivity.
  - exact Hpoll.
Defined.

(** Section 8 of the specification, "gateway poll overlay", run to the
    end: the properties served. *)
Example Poll_gateway_run :
  let st := memory_of [("api-gateway", "{server: {port: 8080}, zuul: {routes: {a: 1}}}");
                       ("zuul-route", "{zuul: {routes: {b: 2}}}")] in
  @Poll collaborators _ operator (poll_request "api-gateway" "default") (fresh st)
  = (Returned tt,
     {| store := st;
        response :=
          [AsJson
             {| env_Name := "api-gateway";
                env_Version := "1.0.0";
                env_Profiles := ["default"];
                env_PropertySources :=
                  [ {| ps_Name := "api-gateway-default-1.0.0";
                       ps_Source :=
                         {[ "server.port" := VFloat64 8080;
                            "zuul.routes.b" := VFloat64 2;
                            "spring.cloud.config.failFast" := VBool true ]} |} ] |}] |}).
Proof. vm_compute. reflexivity. Qed.

End poll_runs.


(** * Further properties of the service *)

(** * More on the merge engine *)

(** [recursiveAdd] is a function: its result is the key-by-key merge. *)
Lemma recursiveAdd_Returned_merge_of (E N R : gmap string value) :
  recursiveAdd E N = Returned R → merge_of E N R.
Proof.
  intros HR. destruct (recursiveAdd_merge_of E N) as (R' & HR' & Hm).
  rewrite HR in HR'. by injection HR' as <-.
Qed.

Lemma recursiveAdd_self_sized (n : nat) :
  ∀ E, value_size (VMap E) < n → recursiveAdd E E = Returned E.
Proof.
  induction n as [|n IH]; intros E Hn; [lia|].
  destruct (recursiveAdd_merge_of E E) as (R & HR & Hm).
  rewrite HR. f_equal. apply map_eq. intros k. specialize (Hm k).
  destruct (E !! k) as [v|] eqn:Hk; [|done].
  destruct Hm as (r & -> & Hr). f_equal.
  destruct v as [| | | | |m]; try done.
  destruct Hr as (om' & Hom' & ->).
  rewrite IH in Hom'; [by injection Hom' as <-|].
  apply value_size_lookup in Hk. lia.
Qed.

Lemma recursiveAdd_absorbs_sized (n : nat) :
  ∀ N E R, value_size (VMap N) < n →
    recursiveAdd E N = Returned R → recursiveAdd R N = Returned R.
Proof.
  induction n as [|n IH]; intros N E R Hn HR; [lia|].
  apply recursiveAdd_Returned_merge_of in HR as Hm.
  destruct (recursiveAdd_merge_of R N) as (R2 & HR2 & Hm2).
  rewrite HR2. f_equal. apply map_eq. intros k.
  specialize (Hm k). specialize (Hm2 k).
  destruct (R !! k) as [rv|] eqn:HRk.
  - destruct (N !! k) as [nv|] eqn:HNk; [|done].
    destruct Hm2 as (r2 & -> & Hr2). f_equal.
    destruct rv as [| | | | |rm]; try done.
    destruct nv as [| | | | |nm]; try done.
    destruct Hr2 as (om2 & Hom2 & ->).
    assert (Hsize : value_size (VMap nm) < n).
    { apply value_size_lookup in HNk. lia. }
    destruct (E !! k) as [ov|] eqn:HEk.
    + destruct Hm as (r & [= <-] & Hr).
      destruct ov as [| | | | |om]; try done.
      destruct Hr as (om' & Hom' & [= ->]).
      rewrite (IH _ _ _ Hsize Hom') in Hom2. by injection Hom2 as <-.
    + injection Hm as ->.
      rewrite (recursiveAdd_self_sized (S (value_size (VMap nm)))) in Hom2 by lia.
      by injection Hom2 as <-.
  - rewrite Hm2. destruct (E !! k) as [ov|].
    + destruct (N !! k); [by destruct Hm as (? & ? & _)|done].
    + done.
Qed.

(** X1.  The keys of a merge are the keys of the existing mapping together
    with the keys of the incoming one: nothing is lost, nothing is made
    up. *)
Theorem recursiveAdd_dom (E N : gmap string value) :
  ∃ R, recursiveAdd E N = Returned R ∧ dom R = dom E ∪ dom N.
Proof.
  destruct (recursiveAdd_merge_of E N) as (R & HR & Hm).
  exists R. split; [done|]. apply set_eq. intros k.
  rewrite elem_of_union, !elem_of_dom. specialize (Hm k).
  destruct (E !! k) as [ov|], (N !! k) as [nv|].
  - destruct Hm as (r & -> & _). split; eauto.
  - rewrite Hm. split; eauto.
  - rewrite Hm. split; eauto.
  - rewrite Hm. split; [auto|]. by intros [[? [=]]|[? [=]]].
Qed.

(** X2.  Merging a mapping into itself changes nothing. *)
Theorem recursiveAdd_idempotent (E : gmap string value) :
  recursiveAdd E E = Returned E.
Proof. apply (recursiveAdd_self_sized (S (value_size (VMap E)))). lia. Qed.

(** X3.  Merging the same incoming mapping a second time changes nothing:
    whatever the first merge returned, the second returns again. *)
Theorem recursiveAdd_absorbs (E N R : gmap string value) :
  recursiveAdd E N = Returned R → recursiveAdd R N = Returned R.
Proof. apply (recursiveAdd_absorbs_sized (S (value_size (VMap N)))). lia. Qed.

(** X4.  The empty mapping on either side: merging nothing in returns the
    existing mapping, merging into nothing returns the incoming one. *)
Theorem recursiveAdd_empty (m : gmap string value) :
  recursiveAdd m ∅ = Returned m ∧ recursiveAdd ∅ m = Returned m.
Proof.
  split; [done|].
  destruct (recursiveAdd_merge_of ∅ m) as (R & HR & Hm).
  rewrite HR. f_equal. apply map_eq. intros k.
  specialize (Hm k). by rewrite lookup_empty in Hm.
Qed.

Section transforms.
Context `{Ext : Collaborators}.


(** X28.  Submitting the same document again under "add" changes nothing:
    when the text [addProperty] returned reads back as the merged document,
    merging the same incoming document into it returns that text again. *)
Theorem addProperty_resubmit (oldYaml data : string)
    (oldMap newMap R : gmap string value) :
  yaml_Unmarshal oldYaml = Ok oldMap →
  recursiveAdd oldMap newMap = Returned R →
  yaml_Marshal R = Ok data →
  yaml_Unmarshal data = Ok R →
  addProperty oldYaml newMap = Returned (data, None)
  ∧ addProperty data newMap = Returned (data, None).
Proof.
  intros Hold HR Hm Hback. unfold addProperty. rewrite Hold, Hback, HR. simpl.
  rewrite (recursiveAdd_absorbs_sized (S (value_size (VMap newMap))) _ _ _
             (Nat.lt_succ_diag_r _) HR). simpl.
  by rewrite Hm.
Qed.

(** X6.  [separateRoute] panics exactly on the documents whose "zuul" key
    is bound to nil. *)
Theorem separateRoute_panics_iff (gateway : gmap string value) :
  (∃ p, separateRoute gateway = Panicked p) ↔ gateway !! "zuul" = Some VNil.
Proof.
  unfold separateRoute. rewrite separateRoute_zuul_fold.
  destruct (gateway !! "zuul") as [v|]; [destruct v|]; simpl;
    unfold mret, outcome_ret;
    repeat match goal with
           | |- context [yaml_Marshal ?m] => destruct (yaml_Marshal m)
           end;
    split; try done; try (by intros [? [=]]); by eexists.
Qed.

(** X7.  A document without "zuul", or with "zuul" bound to something that
    is neither nil nor a mapping holding "routes", goes through
    [separateRoute] unchanged, and the route document is the well-formed
    [{"zuul": {}}]. *)
Theorem separateRoute_passes_through (gateway : gmap string value) :
  gateway !! "zuul" ≠ Some VNil →
  (∀ vm, gateway !! "zuul" = Some (VMap vm) → vm !! "routes" = None) →
  let rm : gmap string value := {[ "zuul" := VMap ∅ ]} in
  separateRoute gateway
  = Returned (gateway,
              match yaml_Marshal gateway, yaml_Marshal rm with
              | Ok gb, Ok rb => (gb, rb, rm, None)
              | Err err, _ | Ok _, Err err => ("", "", ∅, Some err)
              end).
Proof.
  intros Hnil Hroutes rm. unfold separateRoute. rewrite separateRoute_zuul_fold.
  destruct (gateway !! "zuul") as [v|] eqn:Hz.
  - destruct v as [| | | | |vm]; try done; simpl; unfold mret, outcome_ret; fold rm.
    1-4: by destruct (yaml_Marshal gateway), (yaml_Marshal rm).
    rewrite (Hroutes vm eq_refl).
    rewrite (delete_id _ _ (Hroutes vm eq_refl)), (insert_id _ _ _ Hz). fold rm.
    by destruct (yaml_Marshal gateway), (yaml_Marshal rm).
  - simpl. unfold mret, outcome_ret. fold rm.
    by destruct (yaml_Marshal gateway), (yaml_Marshal rm).
Qed.

(** X9.  Whatever [separateRoute] returns, the document it leaves has the
    keys it had, every key other than "zuul" is bound as before, and under
    "zuul" every key other than "routes" is bound as before. *)
Theorem separateRoute_touches_only_routes (gateway remainder : gmap string value)
    (out : string * string * gmap string value * option error) :
  separateRoute gateway = Returned (remainder, out) →
  dom remainder = dom gateway
  ∧ (∀ k, k ≠ "zuul" → remainder !! k = gateway !! k)
  ∧ (∀ vm, gateway !! "zuul" = Some (VMap vm) →
       ∃ vm', remainder !! "zuul" = Some (VMap vm')
            ∧ ∀ k, k ≠ "routes" → vm' !! k = vm !! k).
Proof.
  unfold separateRoute. rewrite separateRoute_zuul_fold.
  set (plain := ∀ r : gmap string value,
         r = gateway →
         dom r = dom gateway
         ∧ (∀ k, k ≠ "zuul" → r !! k = gateway !! k)
         ∧ (∀ vm, gateway !! "zuul" = Some (VMap vm) →
              ∃ vm', r !! "zuul" = Some (VMap vm')
                   ∧ ∀ k, k ≠ "routes" → vm' !! k = vm !! k)).
  assert (Hplain : plain).
  { intros r ->. split; [done|]. split; [done|]. intros vm Hvm. by exists vm. }
  destruct (gateway !! "zuul") as [v|] eqn:Hz.
  - destruct v as [| | | | |vm]; try done; simpl; unfold mret, outcome_ret.
    1-4: repeat match goal with
                | |- context [yaml_Marshal ?m] => destruct (yaml_Marshal m)
                end; intros [= <- <-]; by apply Hplain.
    intros Hret.
    assert (remainder = <["zuul" := VMap (delete "routes" vm)]> gateway) as ->.
    { repeat match goal with
             | H : context [yaml_Marshal ?m] |- _ => destruct (yaml_Marshal m)
             end; by injection Hret as <- <-. }
    repeat split.
    + apply dom_insert_lookup_L. by rewrite Hz.
    + intros k Hk. by rewrite lookup_insert_ne.
    + intros ? [= <-]. exists (delete "routes" vm).
      split; [by rewrite lookup_insert_eq|]. intros k Hk. by rewrite lookup_delete_ne.
  - simpl. unfold mret, outcome_ret.
    repeat match goal with
           | |- context [yaml_Marshal ?m] => destruct (yaml_Marshal m)
           end; intros [= <- <-]; by apply Hplain.
Qed.

(** X8.  Separation can be undone by the merge: when "zuul" is bound to a
    mapping and [separateRoute] returns without error, merging the route
    document back into the remainder gives the document that came in. *)
Theorem separateRoute_recursiveAdd_restores (gateway vm remainder rm : gmap string value)
    (gb rb : string) :
  gateway !! "zuul" = Some (VMap vm) →
  separateRoute gateway = Returned (remainder, (gb, rb, rm, None)) →
  recursiveAdd remainder rm = Returned gateway.
Proof.
  intros Hz. unfold separateRoute. rewrite separateRoute_zuul_fold, Hz. simpl.
  unfold mret, outcome_ret.
  destruct (yaml_Marshal _) as [gb'|]; [|done].
  destruct (yaml_Marshal {[ _ := _ ]}) as [rb'|]; [|done].
  intros [= <- <- <- <-].
  unfold recursiveAdd. simpl. rewrite map_fold_singleton.
  unfold recursiveAdd_body. simpl. unfold utils_Contain, index.
  rewrite lookup_insert_eq. rewrite bool_decide_true by eauto. simpl.
  destruct (vm !! "routes") as [rv|] eqn:Hr.
  - rewrite map_fold_singleton. unfold recursiveAdd_body. simpl.
    unfold utils_Contain. rewrite lookup_delete_eq.
    rewrite bool_decide_false by (by intros [? ?]). simpl.
    unfold mret, outcome_ret. f_equal.
    rewrite insert_delete_eq, (insert_id vm) by done.
    by rewrite insert_insert_eq, insert_id.
  - rewrite map_fold_empty. simpl. unfold mret, outcome_ret. f_equal.
    rewrite delete_id by done. by rewrite insert_insert_eq, insert_id.
Qed.

(** X10.  [isGateway] is membership in the configured gateway names. *)
Theorem isGateway_elem_of (service : string) :
  isGateway service = true ↔ service ∈ GatewayNames.
Proof.
  unfold isGateway. generalize GatewayNames. intros names.
  induction names as [|v names IH]; simpl.
  - split; [done|]. by intros ?%elem_of_nil.
  - rewrite elem_of_cons. case_bool_decide as Hv.
    + split; [by left|done].
    + rewrite IH. split; [by right|]. by intros [->|?].
Qed.

End transforms.

Section poll_more.
Context `{Ext : Collaborators} `{Op : ConfigMapOperator Store}.

(** X17.  The static additions are all in what [appendConfigServerAddition]
    returns, the keys of the result are those of the properties together
    with those of the additions, and appending twice is appending once. *)
Theorem appendConfigServerAddition_additions (kvMap : gmap string value) :
  ConfigServerAdditions ⊆ appendConfigServerAddition kvMap
  ∧ dom (appendConfigServerAddition kvMap) = dom kvMap ∪ dom ConfigServerAdditions
  ∧ appendConfigServerAddition (appendConfigServerAddition kvMap)
    = appendConfigServerAddition kvMap.
Proof.
  split; [|split].
  - apply map_subseteq_spec. intros k v Hk.
    by rewrite lookup_appendConfigServerAddition, Hk.
  - apply set_eq. intros k.
    rewrite elem_of_union, !elem_of_dom, lookup_appendConfigServerAddition.
    destruct (ConfigServerAdditions !! k); split; eauto.
    by intros [?|[? [=]]].
  - apply map_eq. intros k. rewrite !lookup_appendConfigServerAddition.
    by destruct (ConfigServerAdditions !! k).
Qed.

(** X11.  A record without a blob under the profile key, or with an empty
    one, is not an error: the properties are those of the empty document,
    the decoder is not consulted, and the version tag is the annotation of
    the record (empty when the record has none). *)
Theorem getConfigFromConfigMap_empty_blob (service version : string) (st : Store)
    (configMap : ConfigMap) :
  let application :=
    "application"
    +:+ (if bool_decide (version ≠ DefaultProfile) then "-" +:+ version else "")
    +:+ ".yml" in
  QueryConfigMapByName service st = Some configMap →
  Data configMap !! application = None ∨ Data configMap !! application = Some "" →
  getConfigFromConfigMap service version st
  = Ok (ConvertRecursiveMapToSingleMap ∅,
        default "" (Annotations configMap !! ChoerodonVersion)).
Proof.
  intros application Hq Hblob. unfold getConfigFromConfigMap. rewrite Hq.
  fold application. by destruct Hblob as [-> | ->].
Qed.

(** X12.  Whatever the request and the store, [Poll] returns, leaves the
    store as it found it and writes exactly one thing to the response: a
    400, a 404 or an Environment. *)
Theorem Poll_read_only (request : Request) (w : world Store) :
  ∃ x, Poll request w
       = (Returned tt, {| store := store w; response := response w ++ [x] |})
     ∧ ((∃ message, x = ErrorString 400 message)
        ∨ (∃ message, x = ErrorString 404 message)
        ∨ (∃ env, x = AsJson env)).
Proof.
  unfold Poll. repeat case_bool_decide; [by eexists; eauto..|]. run.
  destruct (getConfigFromConfigMap _ _ (store w)) as [[kvMap tag]|];
    [|by eexists; eauto].
  destruct (isGateway _); run; [|by eexists; eauto 6].
  destruct (getConfigFromConfigMap _ _ (store w)) as [[routeMap tag']|];
    by eexists; eauto 6.
Qed.

(** X13.  The path parameters are checked in order, before any lookup: an
    empty service is answered "service is empty" whatever the version, an
    empty version with a service is answered "version is empty". *)
Theorem Poll_bad_request (request : Request) (w : world Store) :
  (PathParameter request "service" = "" →
   Poll request w
   = (Returned tt,
      {| store := store w;
         response := response w ++ [ErrorString 400 "service is empty"] |}))
  ∧ (PathParameter request "service" ≠ "" →
     PathParameter request "version" = "" →
     Poll request w
     = (Returned tt,
        {| store := store w;
           response := response w ++ [ErrorString 400 "version is empty"] |})).
Proof.
  unfold Poll. split.
  - intros Hs. by rewrite (bool_decide_true _ Hs).
  - intros Hs Hv. by rewrite (bool_decide_false _ Hs), (bool_decide_true _ Hv).
Qed.

(** X14.  A blob that does not decode is answered like a missing record:
    404, nothing else. *)
Theorem Poll_undecodable_blob (request : Request) (w : world Store)
    (configMap : ConfigMap) (yamlString : string) (e : error) :
  let service := PathParameter request "service" in
  let version := PathParameter request "version" in
  let application :=
    "application"
    +:+ (if bool_decide (version ≠ DefaultProfile) then "-" +:+ version else "")
    +:+ ".yml" in
  service ≠ "" →
  version ≠ "" →
  QueryConfigMapByName service (store w) = Some configMap →
  Data configMap !! application = Some yamlString →
  yamlString ≠ "" →
  yaml_Unmarshal yamlString = Err e →
  Poll request w
  = (Returned tt,
     {| store := store w;
        response := response w ++ [ErrorString 404 "can't find correct configMap"] |}).
Proof.
  intros service version application Hs Hv Hq Hblob Hne Hdec.
  unfold Poll. fold service. fold version.
  rewrite !bool_decide_false by done. run.
  unfold getConfigFromConfigMap. rewrite Hq. fold application. rewrite Hblob. simpl.
  rewrite (bool_decide_true _ Hne). by rewrite Hdec.
Qed.

(** X15.  A poll of a service that is not one of [GatewayNames]: the
    Environment carries the service's own flattened properties under the
    static additions, the shared route table is not looked up, and the own
    "zuul.routes." keys are served as they are. *)
Theorem Poll_plain_service (request : Request) (w : world Store)
    (own : gmap string value) (tag : string) :
  let service := PathParameter request "service" in
  let version := PathParameter request "version" in
  service ≠ "" →
  version ≠ "" →
  isGateway service = false →
  getConfigFromConfigMap service version (store w) = Ok (own, tag) →
  ∃ source : gmap string value,
    (∀ k, source !! k = match ConfigServerAdditions !! k with
                         | Some v => Some v
                         | None => own !! k
                         end)
    ∧ Poll request w
      = (Returned tt,
         {| store := store w;
            response :=
              response w
              ++ [AsJson
                    {| env_Name := service;
                       env_Version := tag;
                       env_Profiles := [version];
                       env_PropertySources :=
                         [ {| ps_Name := service +:+ "-" +:+ version +:+ "-" +:+ tag;
                              ps_Source := source |} ] |}] |}).
Proof.
  intros service version Hs Hv Hgw Hown.
  exists (appendConfigServerAddition own). split.
  - intros k. apply lookup_appendConfigServerAddition.
  - unfold Poll. fold service. fold version. rewrite !bool_decide_false by done.
    run. by rewrite Hown, Hgw.
Qed.

(** X16.  Every Environment [Poll] writes is named after the service, has
    the requested version as its only profile and a single property source,
    named service-version-tag, that holds every static addition. *)
Theorem Poll_environment_shape (request : Request) (w w' : world Store)
    (o : outcome unit) (env : Environment) :
  Poll request w = (o, w') →
  response w' = response w ++ [AsJson env] →
  env_Name env = PathParameter request "service"
  ∧ env_Profiles env = [PathParameter request "version"]
  ∧ ∃ source,
      env_PropertySources env
      = [ {| ps_Name := PathParameter request "service" +:+ "-"
                        +:+ PathParameter request "version" +:+ "-"
                        +:+ env_Version env;
             ps_Source := source |} ]
      ∧ ConfigServerAdditions ⊆ source.
Proof.
  unfold Poll.
  assert (Herr : ∀ status message (w0 : world Store),
    (Returned tt, {| store := store w; response := response w ++ [ErrorString status message] |})
    = (o, w0) →
    response w0 = response w ++ [AsJson env] → False).
  { intros status message w0 [= _ <-]. simpl. by intros [=]%app_inv_head. }
  assert (Hok : ∀ kvMap tag (w0 : world Store),
    (Returned tt,
     {| store := store w;
        response := response w ++
          [AsJson {| env_Name := PathParameter request "service";
                     env_Version := tag;
                     env_Profiles := [PathParameter request "version"];
                     env_PropertySources :=
                       [ {| ps_Name := PathParameter request "service" +:+ "-"
                                       +:+ PathParameter request "version" +:+ "-" +:+ tag;
                            ps_Source := appendConfigServerAddition kvMap |} ] |}] |})
    = (o, w0) →
    response w0 = response w ++ [AsJson env] →
    env_Name env = PathParameter request "service"
    ∧ env_Profiles env = [PathParameter request "version"]
    ∧ ∃ source,
        env_PropertySources env
        = [ {| ps_Name := PathParameter request "service" +:+ "-"
                          +:+ PathParameter request "version" +:+ "-"
                          +:+ env_Version env;
               ps_Source := source |} ]
        ∧ ConfigServerAdditions ⊆ source).
  { intros kvMap tag w0 [= _ <-]. simpl. intros [= <-]%app_inv_head. simpl.
    split; [done|]. split; [done|]. eexists. split; [done|].
    apply map_subseteq_spec. intros k v Hk.
    by rewrite lookup_appendConfigServerAddition, Hk. }
  repeat case_bool_decide; [by intros ? ?; exfalso; eapply Herr..|]. run.
  destruct (getConfigFromConfigMap _ _ (store w)) as [[kvMap tag]|];
    [|by intros ? ?; exfalso; eapply Herr].
  destruct (isGateway _); run; [|by apply Hok].
  destruct (getConfigFromConfigMap _ _ (store w)) as [[routeMap tag']|];
    [by apply Hok|by intros ? ?; exfalso; eapply Herr].
Qed.

End poll_more.

Section resolver_more.
Context `{Ext : Collaborators} `{Op : ConfigMapOperator Store}.

Lemma addProperty_Returned (oldYaml : string) (newMap : gmap string value) :
  ∃ r, addProperty oldYaml newMap = Returned r.
Proof.
  unfold addProperty. destruct (yaml_Unmarshal oldYaml) as [oldMap|e]; [|by eexists].
  destruct (recursiveAdd_merge_of oldMap newMap) as (R & -> & _). simpl.
  destruct (yaml_Marshal R); by eexists.
Qed.

(** X18.  An existing record under a policy that is neither "not" nor "add"
    (that is, "cover"): the incoming document is written as it came; the
    stored blob is not read. *)
Theorem createOrUpdateConfigMap_cover_existing (dto : SaveConfigDTO)
    (source : gmap string value) (w : world Store) (cm : ConfigMap) :
  QueryConfigMap (Service dto) (Namespace dto) (store w) = Some cm →
  UpdatePolicy dto ≠ UpdatePolicyNot →
  UpdatePolicy dto ≠ UpdatePolicyAdd →
  createOrUpdateConfigMap dto source w
  = match UpdateConfigMap dto (store w) with
    | (Some _, st) =>
        (Returned tt,
         {| store := st;
            response := response w ++ [ErrorString 500 "update configMap failed"] |})
    | (None, st) => (Returned tt, {| store := st; response := response w |})
    end.
Proof.
  intros Hq Hnot Hadd. unfold createOrUpdateConfigMap. run. rewrite Hq. run.
  rewrite (bool_decide_false _ Hnot), (bool_decide_false _ Hadd). run.
  rewrite (bool_decide_true _ Hnot).
  by destruct (UpdateConfigMap dto (store w)) as [[?|] ?].
Qed.


(** X20.  An existing record under "add" without a blob (or with an empty
    one) under the profile key: nothing is merged, the incoming document is
    written as it came. *)
Theorem createOrUpdateConfigMap_add_empty_blob (dto : SaveConfigDTO)
    (source : gmap string value) (w : world Store) (cm : ConfigMap) :
  QueryConfigMap (Service dto) (Namespace dto) (store w) = Some cm →
  UpdatePolicy dto = UpdatePolicyAdd →
  Data cm !! ConfigMapProfileKey (Profile dto) = None
  ∨ Data cm !! ConfigMapProfileKey (Profile dto) = Some "" →
  createOrUpdateConfigMap dto source w
  = match UpdateConfigMap dto (store w) with
    | (Some _, st) =>
        (Returned tt,
         {| store := st;
            response := response w ++ [ErrorString 500 "update configMap failed"] |})
    | (None, st) => (Returned tt, {| store := st; response := response w |})
    end.
Proof.
  intros Hq Hadd Hold. unfold createOrUpdateConfigMap. run. rewrite Hq. run.
  rewrite Hadd. run.
  assert (default "" (Data cm !! ConfigMapProfileKey (Profile dto)) = "") as ->.
  { by destruct Hold as [-> | ->]. }
  run. rewrite Hadd. simpl.
  by destruct (UpdateConfigMap dto (store w)) as [[?|] ?].
Qed.

(** X21.  A first-time save under "not": the record is created and that is
    all; [UpdateConfigMap] is not called. *)
Theorem createOrUpdateConfigMap_first_not (dto : SaveConfigDTO)
    (source : gmap string value) (w : world Store) :
  QueryConfigMap (Service dto) (Namespace dto) (store w) = None →
  UpdatePolicy dto = UpdatePolicyNot →
  createOrUpdateConfigMap dto source w
  = match CreateConfigMap dto (store w) with
    | (Some _, st) =>
        (Returned tt,
         {| store := st;
            response := response w ++ [ErrorString 500 "create configMap failed"] |})
    | (None, st) => (Returned tt, {| store := st; response := response w |})
    end.
Proof.
  intros Hq Hnot. unfold createOrUpdateConfigMap. run. rewrite Hq. run.
  destruct (CreateConfigMap dto (store w)) as [[e|] st]; run; [done|].
  case_bool_decide as Hadd; [by rewrite Hnot in Hadd|]. run.
  by case_bool_decide.
Qed.

(** X22.  A first-time save under a policy that is neither "not" nor "add":
    the record is created and then updated with the same document; a failed
    creation is answered 500 and ends the save. *)
Theorem createOrUpdateConfigMap_first_time_cover (dto : SaveConfigDTO)
    (source : gmap string value) (w : world Store) :
  QueryConfigMap (Service dto) (Namespace dto) (store w) = None →
  UpdatePolicy dto ≠ UpdatePolicyNot →
  UpdatePolicy dto ≠ UpdatePolicyAdd →
  createOrUpdateConfigMap dto source w
  = match CreateConfigMap dto (store w) with
    | (Some _, st) =>
        (Returned tt,
         {| store := st;
            response := response w ++ [ErrorString 500 "create configMap failed"] |})
    | (None, st) =>
        match UpdateConfigMap dto st with
        | (Some _, st') =>
            (Returned tt,
             {| store := st';
                response := response w ++ [ErrorString 500 "update configMap failed"] |})
        | (None, st') => (Returned tt, {| store := st'; response := response w |})
        end
    end.
Proof.
  intros Hq Hnot Hadd. unfold createOrUpdateConfigMap. run. rewrite Hq. run.
  destruct (CreateConfigMap dto (store w)) as [[e|] st]; run; [done|].
  rewrite (bool_decide_false _ Hadd). run. rewrite (bool_decide_true _ Hnot). run.
  by destruct (UpdateConfigMap dto st) as [[?|] ?].
Qed.

(** X23.  The resolver writes at most one thing to the response, and only
    an error: 304, and then the record exists and the policy is "not", or
    500. *)
Theorem createOrUpdateConfigMap_response (dto : SaveConfigDTO)
    (source : gmap string value) (w : world Store) :
  let w' := (createOrUpdateConfigMap dto source w).2 in
  response w' = response w
  ∨ ∃ status message,
      response w' = response w ++ [ErrorString status message]
      ∧ (status = 500%Z
         ∨ status = 304%Z
           ∧ is_Some (QueryConfigMap (Service dto) (Namespace dto) (store w))
           ∧ UpdatePolicy dto = UpdatePolicyNot).
Proof.
  cbv zeta. unfold createOrUpdateConfigMap. run.
  destruct (QueryConfigMap _ _ (store w)) as [cm|] eqn:Hq; run.
  - case_bool_decide as Hnot; run; [by right; eauto 8|].
    case_bool_decide as Hadd; run.
    + case_bool_decide as Hold; run.
      * destruct (addProperty_Returned (default "" (Data cm !! ConfigMapProfileKey (Profile dto))) source)
          as [[data [e|]] ->]; run; [by right; eauto 8|].
        rewrite (bool_decide_true _ Hnot).
        destruct (UpdateConfigMap _ (store w)) as [[?|] ?]; simpl; [right|left]; eauto 8.
      * rewrite (bool_decide_true _ Hnot).
        destruct (UpdateConfigMap _ (store w)) as [[?|] ?]; simpl; [right|left]; eauto 8.
    + rewrite (bool_decide_true _ Hnot).
      destruct (UpdateConfigMap _ (store w)) as [[?|] ?]; simpl; [right|left]; eauto 8.
  - destruct (CreateConfigMap dto (store w)) as [[e|] st]; run; [by right; eauto 8|].
    case_bool_decide as Hadd; run; [by left|].
    case_bool_decide as Hnot; run; [|by left].
    destruct (UpdateConfigMap _ st) as [[?|] ?]; simpl; [right|left]; eauto 8.
Qed.


End resolver_more.

Section save_more.
Context `{Ext : Collaborators} `{Op : ConfigMapOperator Store}.

(** X25.  A request whose body cannot be read, fails validation or carries
    text that is not YAML is answered 400 and nothing else: no store call
    is made. *)
Theorem Save_bad_request (request : Request) (w : world Store) :
  Entity request = None
  ∨ (∃ dto, Entity request = Some dto
          ∧ (is_Some (validate_Struct dto)
             ∨ ∃ e, yaml_Unmarshal (Yaml dto) = Err e)) →
  ∃ message,
    Save request w
    = (Returned tt,
       {| store := store w;
          response := response w ++ [ErrorString 400 message] |}).
Proof.
  unfold Save. intros [-> | (dto & -> & Hbad)]; [by eexists|].
  destruct (validate_Struct dto) as [e|]; [by eexists|].
  destruct Hbad as [[? [=]] | [e ->]]. by eexists.
Qed.

(** X26.  When the separation for [ApiGatewayServiceName] returns an error
    (one of the two documents does not serialize), the save is answered 500
    and neither document is handed to the resolver. *)
Theorem Save_separation_failure (request : Request) (dto : SaveConfigDTO)
    (source remainder rm : gmap string value) (gb rb : string) (e : error)
    (w : world Store) :
  Entity request = Some dto →
  validate_Struct dto = None →
  yaml_Unmarshal (Yaml dto) = Ok source →
  Service dto = ApiGatewayServiceName →
  separateRoute source = Returned (remainder, (gb, rb, rm, Some e)) →
  Save request w
  = (Returned tt,
     {| store := store w;
        response := response w ++ [ErrorString 500 "separateRoute error"] |}).
Proof.
  intros Hdto Hval Hdec Hsvc Hsep. unfold Save. rewrite Hdto, Hval, Hdec.
  rewrite (bool_decide_true _ Hsvc). run. by rewrite Hsep.
Qed.

(** X27.  A save for [ApiGatewayServiceName] under "not" when both the
    route table record and the gateway's own record exist: each of the two
    resolver runs answers 304, so the response carries the error twice; the
    store is left as it was. *)
Theorem Save_api_gateway_double_conflict (request : Request) (dto : SaveConfigDTO)
    (source remainder rm : gmap string value) (gb rb : string)
    (routes own : ConfigMap) (w : world Store) :
  Entity request = Some dto →
  validate_Struct dto = None →
  yaml_Unmarshal (Yaml dto) = Ok source →
  Service dto = ApiGatewayServiceName →
  separateRoute source = Returned (remainder, (gb, rb, rm, None)) →
  UpdatePolicy dto = UpdatePolicyNot →
  QueryConfigMap RouteConfigMap (Namespace dto) (store w) = Some routes →
  QueryConfigMap (Service dto) (Namespace dto) (store w) = Some own →
  Save request w
  = (Returned tt,
     {| store := store w;
        response := response w
                    ++ [ErrorString 304 "configMap is already exist";
                        ErrorString 304 "configMap is already exist"] |}).
Proof.
  intros Hdto Hval Hdec Hsvc Hsep Hnot Hroutes Hown.
  unfold Save. rewrite Hdto, Hval, Hdec. rewrite (bool_decide_true _ Hsvc).
  run. rewrite Hsep. run.
  unfold createOrUpdateConfigMap. run. rewrite Hroutes. run. rewrite Hnot. run.
  rewrite Hown. run. rewrite (bool_decide_true _ Hnot). run.
  by rewrite <- (assoc_L (++)).
Qed.

End save_more.

(** * Runs of the further properties on the concrete deployment *)

Section more_runs.
Import deployment.

Lemma recursiveAdd_absorbs_witness :
  recursiveAdd {[ "a" := VMap {[ "x" := VFloat64 1; "y" := VFloat64 2 ]} ]}
               {[ "a" := VMap {[ "y" := VFloat64 2 ]} ]}
  = Returned {[ "a" := VMap {[ "x" := VFloat64 1; "y" := VFloat64 2 ]} ]}.
Proof.
  apply (recursiveAdd_absorbs {[ "a" := VMap {[ "x" := VFloat64 1 ]} ]}).
  vm_compute. reflexivity.
Defined.

Lemma addProperty_resubmit_witness :
  @addProperty collaborators "{server: {port: 8080}}"
    {[ "zuul" := VMap {[ "routes" := VMap {[ "a" := VFloat64 1 ]} ]} ]}
  = Returned ("{server: {port: 8080}, zuul: {routes: {a: 1}}}", None)
  ∧ @addProperty collaborators "{server: {port: 8080}, zuul: {routes: {a: 1}}}"
      {[ "zuul" := VMap {[ "routes" := VMap {[ "a" := VFloat64 1 ]} ]} ]}
    = Returned ("{server: {port: 8080}, zuul: {routes: {a: 1}}}", None).
Proof.
  apply (@addProperty_resubmit collaborators _ _ port_doc _ local_routes_doc);
    vm_compute; reflexivity.
Defined.

Lemma separateRoute_passes_through_witness :
  @separateRoute collaborators port_doc
  = Returned (port_doc,
              ("{server: {port: 8080}}", "{zuul: {}}", {[ "zuul" := VMap ∅ ]}, None)).
Proof.
  etrans.
  - apply (@separateRoute_passes_through collaborators port_doc).
    + vm_compute. discriminate.
    + intros vm. vm_compute. discriminate.
  - reflexivity.
Defined.

Lemma separateRoute_recursiveAdd_restores_witness :
  recursiveAdd {[ "zuul" := VMap {[ "other" := VString "keep" ]} ]} routes_only_doc
  = Returned gateway_doc.
Proof.
  apply (@separateRoute_recursiveAdd_restores collaborators gateway_doc
           {[ "routes" := VMap routes_r1; "other" := VString "keep" ]}
           _ _ "{zuul: {other: keep}}" "{zuul: {routes: {r1: /foo}}}");
    vm_compute; reflexivity.
Defined.

Lemma separateRoute_touches_only_routes_witness :
  let gateway : gmap string value :=
    <[ "server" := VMap {[ "port" := VFloat64 8080 ]} ]> gateway_doc in
  let remainder : gmap string value :=
    {[ "server" := VMap {[ "port" := VFloat64 8080 ]};
       "zuul" := VMap {[ "other" := VString "keep" ]} ]} in
  dom remainder = dom gateway
  ∧ (∀ k, k ≠ "zuul" → remainder !! k = gateway !! k)
  ∧ (∀ vm, gateway !! "zuul" = Some (VMap vm) →
       ∃ vm', remainder !! "zuul" = Some (VMap vm')
            ∧ ∀ k, k ≠ "routes" → vm' !! k = vm !! k).
Proof.
  intros gateway remainder.
  apply (@separateRoute_touches_only_routes collaborators gateway remainder
           ("{server: {port: 8080}, zuul: {other: keep}}",
            "{zuul: {routes: {r1: /foo}}}", routes_only_doc, None)).
  vm_compute. reflexivity.
Defined.

Lemma getConfigFromConfigMap_empty_blob_witness :
  @getConfigFromConfigMap collaborators _ operator "config-demo" "dev"
    (memory_of [("config-demo", "{server: {port: 8080}}")])
  = Ok (∅, "1.0.0").
Proof.
  etrans.
  - apply (@getConfigFromConfigMap_empty_blob collaborators _ operator
             "config-demo" "dev" _
             (blob "default" "{server: {port: 8080}}" "1.0.0")).
    + reflexivity.
    + left. vm_compute. reflexivity.
  - vm_compute. reflexivity.
Defined.

Lemma Poll_undecodable_blob_witness :
  @Poll collaborators _ operator (poll_request "config-demo" "default")
    (fresh (memory_of [("config-demo", "server: [")]))
  = (Returned tt,
     {| store := memory_of [("config-demo", "server: [")];
        response := [ErrorString 404 "can't find correct configMap"] |}).
Proof.
  etrans.
  - apply (@Poll_undecodable_blob collaborators _ operator
             (poll_request "config-demo" "default") _
             (blob "default" "server: [" "1.0.0") "server: ["
             "yaml: did not find expected node content");
      vm_compute; first [reflexivity | discriminate].
  - reflexivity.
Defined.

Lemma Poll_plain_service_witness :
  let st := memory_of [("config-demo", "{server: {port: 8080}, zuul: {routes: {a: 1}}}")] in
  ∃ source : gmap string value,
    source !! "zuul.routes.a" = Some (VFloat64 1)
    ∧ source !! "server.port" = Some (VFloat64 8080)
    ∧ source !! "spring.cloud.config.failFast" = Some (VBool true)
    ∧ @Poll collaborators _ operator (poll_request "config-demo" "default") (fresh st)
      = (Returned tt,
         {| store := st;
            response :=
              [AsJson
                 {| env_Name := "config-demo";
                    env_Version := "1.0.0";
                    env_Profiles := ["default"];
                    env_PropertySources :=
                      [ {| ps_Name := "config-demo-default-1.0.0";
                           ps_Source := source |} ] |}] |}).
Proof.
  intros st.
  destruct (@Poll_plain_service collaborators _ operator
              (poll_request "config-demo" "default") (fresh st)
              (flatten local_routes_doc) "1.0.0")
    as (source & Hsource & Hpoll); [vm_compute; first [reflexivity | discriminate]..|].
  exists source. repeat split; [rewrite Hsource; vm_compute; reflexivity..|].
  exact Hpoll.
Defined.

Lemma Poll_environment_shape_witness :
  let env :=
    {| env_Name := "config-demo";
       env_Version := "1.0.0";
       env_Profiles := ["default"];
       env_PropertySources :=
         [ {| ps_Name := "config-demo-default-1.0.0";
              ps_Source := {[ "server.port" := VFloat64 8080;
                              "spring.cloud.config.failFast" := VBool true ]} |} ] |} in
  env_Name env = "config-demo"
  ∧ env_Profiles env = ["default"]
  ∧ ∃ source,
      env_PropertySources env
      = [ {| ps_Name := "config-demo" +:+ "-" +:+ "default" +:+ "-" +:+ env_Version env;
             ps_Source := source |} ]
      ∧ @ConfigServerAdditions collaborators ⊆ source.
Proof.
  intros env.
  apply (@Poll_environment_shape collaborators _ operator
           (poll_request "config-demo" "default")
           (fresh (memory_of [("config-demo", "{server: {port: 8080}}")]))
           {| store := memory_of [("config-demo", "{server: {port: 8080}}")];
              response := [AsJson env] |}
           (Returned tt) env);
    vm_compute; reflexivity.
Defined.

Lemma createOrUpdateConfigMap_cover_existing_witness :
  @createOrUpdateConfigMap collaborators _ operator
    (dto_of "config-demo" "cover" "{zuul: {}}") {[ "zuul" := VMap ∅ ]}
    (fresh (memory_of [("config-demo", "{server: {port: 8080}}")]))
  = (Returned tt,
     {| store :=
          {| records := {[ ("config-demo", "default") := blob "default" "{zuul: {}}" "1.0.0" ]};
             journal := [Update (dto_of "config-demo" "cover" "{zuul: {}}")] |};
        response := [] |}).
Proof.
  etrans.
  - apply (@createOrUpdateConfigMap_cover_existing collaborators _ operator
             _ _ _ (blob "default" "{server: {port: 8080}}" "1.0.0"));
      vm_compute; first [reflexivity | discriminate].
  - reflexivity.
Defined.


Lemma createOrUpdateConfigMap_add_empty_blob_witness :
  let dto := {| Service := "config-demo"; Version := "1.0.0"; Profile := "dev";
                Namespace := "default"; UpdatePolicy := "add";
                Yaml := "{zuul: {}}" |} in
  @createOrUpdateConfigMap collaborators _ operator dto {[ "zuul" := VMap ∅ ]}
    (fresh (memory_of [("config-demo", "{server: {port: 8080}}")]))
  = (Returned tt,
     {| store :=
          {| records :=
               {[ ("config-demo", "default")
                  := {| Data := {[ "application.yml" := "{server: {port: 8080}}";
                                   "application-dev.yml" := "{zuul: {}}" ]};
                        Annotations := {[ "choerodon.io/version" := "1.0.0" ]} |} ]};
             journal := [Update dto] |};
        response := [] |}).
Proof.
  intros dto. etrans.
  - apply (@createOrUpdateConfigMap_add_empty_blob collaborators _ operator
             dto _ _ (blob "default" "{server: {port: 8080}}" "1.0.0")).
    + reflexivity.
    + reflexivity.
    + left. vm_compute. reflexivity.
  - reflexivity.
Defined.

Lemma createOrUpdateConfigMap_first_not_witness :
  @createOrUpdateConfigMap collaborators _ operator
    (dto_of "config-demo" "not" "{server: {port: 8080}}") port_doc
    (fresh empty_memory)
  = (Returned tt,
     {| store :=
          {| records := {[ ("config-demo", "default")
                           := blob "default" "{server: {port: 8080}}" "1.0.0" ]};
             journal := [Create (dto_of "config-demo" "not" "{server: {port: 8080}}")] |};
        response := [] |}).
Proof.
  etrans.
  - apply (@createOrUpdateConfigMap_first_not collaborators _ operator);
      vm_compute; reflexivity.
  - reflexivity.
Defined.

Lemma createOrUpdateConfigMap_first_time_cover_witness :
  @createOrUpdateConfigMap collaborators _ operator
    (dto_of "config-demo" "cover" "{server: {port: 8080}}") port_doc
    (fresh empty_memory)
  = (Returned tt,
     {| store :=
          {| records := {[ ("config-demo", "default")
                           := blob "default" "{server: {port: 8080}}" "1.0.0" ]};
             journal := [Create (dto_of "config-demo" "cover" "{server: {port: 8080}}");
                         Update (dto_of "config-demo" "cover" "{server: {port: 8080}}")] |};
        response := [] |}).
Proof.
  etrans.
  - apply (@createOrUpdateConfigMap_first_time_cover collaborators _ operator);
      vm_compute; first [reflexivity | discriminate].
  - reflexivity.
Defined.


Lemma Save_bad_request_witness :
  ∃ message,
    @Save collaborators _ operator
      (save_request (dto_of "config-demo" "cover" "server: ["))
      (fresh empty_memory)
    = (Returned tt,
       {| store := store (fresh empty_memory);
          response := response (fresh empty_memory) ++ [ErrorString 400 message] |}).
Proof.
  apply (@Save_bad_request collaborators _ operator).
  right. eexists. split; [reflexivity|]. right. eexists. vm_compute. reflexivity.
Defined.

Lemma Save_separation_failure_witness :
  @Save unserializable.collaborators _ operator
    (save_request (dto_of "api-gateway" "cover" "{zuul: {other: keep, routes: {r1: /foo}}}"))
    (fresh empty_memory)
  = (Returned tt,
     {| store := empty_memory;
        response := [ErrorString 500 "separateRoute error"] |}).
Proof.
  etrans.
  - apply (@Save_separation_failure unserializable.collaborators _ operator
             _ (dto_of "api-gateway" "cover" "{zuul: {other: keep, routes: {r1: /foo}}}")
             gateway_doc {[ "zuul" := VMap {[ "other" := VString "keep" ]} ]} ∅ "" ""
             "yaml: unsupported type");
      vm_compute; reflexivity.
  - reflexivity.
Defined.

Lemma Save_api_gateway_double_conflict_witness :
  let st := memory_of [("api-gateway", "{zuul: {}}");
                       ("zuul-route", "{zuul: {routes: {b: 2}}}")] in
  @Save collaborators _ operator
    (save_request (dto_of "api-gateway" "not" "{zuul: {other: keep, routes: {r1: /foo}}}"))
    (fresh st)
  = (Returned tt,
     {| store := st;
        response := [ErrorString 304 "configMap is already exist";
                     ErrorString 304 "configMap is already exist"] |}).
Proof.
  intros st. etrans.
  - apply (@Save_api_gateway_double_conflict collaborators _ operator
             _ (dto_of "api-gateway" "not" "{zuul: {other: keep, routes: {r1: /foo}}}")
             gateway_doc {[ "zuul" := VMap {[ "other" := VString "keep" ]} ]}
             routes_only_doc "{zuul: {other: keep}}" "{zuul: {routes: {r1: /foo}}}"
             (blob "default" "{zuul: {routes: {b: 2}}}" "1.0.0")
             (blob "default" "{zuul: {}}" "1.0.0"));
      vm_compute; reflexivity.
  - reflexivity.
Defined.

End more_runs.
